(** * microsservico-clima: the extraction script and the query API

    A shallow embedding of [scripts/extrair_clima.py] (fetch, extract,
    insert) and of [api/main.py] (the two read endpoints), with the
    properties of the specification stated over it.

    Python values are dynamically typed, so the embedding keeps one type
    of values and gives subscription ([d[k]]) its three ways of failing.
    The database is a world that is threaded through every call. *)

From Stdlib Require Import ZArith List String Ascii Bool Lia.
From Stdlib Require Import Floats.
From Stdlib Require Import Sorting.Sorted Sorting.Permutation.
Import ListNotations.

Set Warnings "-register-all".

Local Open Scope string_scope.
Local Open Scope Z_scope.

(** ** Python values *)

(** What [response.json()] can return, which is also what the script
    builds and passes on.  A [dict] is kept as the list of its items in
    insertion order; a lookup takes the first item with the key. *)
Inductive value : Type :=
| VNone
| VBool (b : bool)
| VInt (z : Z)
| VFloat (f : float)
| VStr (s : string)
| VList (l : list value)
| VDict (d : list (string * value)).

(** The exceptions that occur in the two programs. *)
Inductive exn : Type :=
| KeyError
| IndexError
| TypeError
| DbError                       (* psycopg2.Error and its subclasses *)
| HTTPException (status : Z)    (* fastapi.HTTPException *)
| ValueErr.                     (* ValueError, UnicodeEncodeError included *)

(** A call either returns or raises. *)
Inductive result (A : Type) : Type :=
| Return (a : A)
| Raise (e : exn).
Arguments Return {A} a.
Arguments Raise {A} e.

Definition bind {A B} (r : result A) (k : A -> result B) : result B :=
  match r with
  | Return a => k a
  | Raise e => Raise e
  end.

Notation "x <- r ;; k" := (bind r (fun x => k))
  (at level 61, r at next level, right associativity).

(** A subscript is a string or an integer. *)
Inductive subscript : Type :=
| SKey (k : string)
| SIdx (i : Z).

Fixpoint dict_get (k : string) (d : list (string * value)) : option value :=
  match d with
  | [] => None
  | (k', v) :: d' => if String.eqb k k' then Some v else dict_get k d'
  end.

(** Python's sequence indexing: a negative index counts from the end. *)
Definition seq_index {A} (i : Z) (l : list A) : option A :=
  let n := Z.of_nat (List.length l) in
  if (0 <=? i) && (i <? n) then nth_error l (Z.to_nat i)
  else if (- n <=? i) && (i <? 0) then nth_error l (Z.to_nat (n + i))
  else None.

(** [v[s]].  The keys of a parsed JSON object are strings, so an integer
    is never a key of one: [d[0]] is a KeyError. *)
Definition getitem (v : value) (s : subscript) : result value :=
  match v, s with
  | VDict d, SKey k =>
      match dict_get k d with
      | Some x => Return x
      | None => Raise KeyError
      end
  | VDict _, SIdx _ => Raise KeyError
  | VList l, SIdx i =>
      match seq_index i l with
      | Some x => Return x
      | None => Raise IndexError
      end
  | VList _, SKey _ => Raise TypeError
  | VStr t, SIdx i =>
      match seq_index i (list_ascii_of_string t) with
      | Some c => Return (VStr (String c EmptyString))
      | None => Raise IndexError
      end
  | VStr _, SKey _ => Raise TypeError
  | _, _ => Raise TypeError
  end.

(** [v[s1][s2]...] *)
Fixpoint getpath (v : value) (p : list subscript) : result value :=
  match p with
  | [] => Return v
  | s :: p' => x <- getitem v s ;; getpath x p'
  end.

(** Truth value of a Python object, as [if x:] tests it. *)
Definition truthy (v : value) : bool :=
  match v with
  | VNone => false
  | VBool b => b
  | VInt z => negb (z =? 0)
  | VFloat f => negb (PrimFloat.eqb f 0%float)
  | VStr s => negb (String.eqb s "")
  | VList l => match l with [] => false | _ => true end
  | VDict d => match d with [] => false | _ => true end
  end.

(** ** The extractor *)

(** The dict display of [extrair_info_interesse]: the ten items are
    evaluated in the order they are written, and the first subscription
    that fails ends the evaluation. *)
Definition info_extraida (dados_completos : value) : result value :=
  cidade <- getpath dados_completos [SKey "name"] ;;
  pais <- getpath dados_completos [SKey "sys"; SKey "country"] ;;
  temperatura_c <- getpath dados_completos [SKey "main"; SKey "temp"] ;;
  sensacao_termica_c <- getpath dados_completos [SKey "main"; SKey "feels_like"] ;;
  temp_min_c <- getpath dados_completos [SKey "main"; SKey "temp_min"] ;;
  temp_max_c <- getpath dados_completos [SKey "main"; SKey "temp_max"] ;;
  umidade_pct <- getpath dados_completos [SKey "main"; SKey "humidity"] ;;
  descricao <- getpath dados_completos [SKey "weather"; SIdx 0; SKey "description"] ;;
  velocidade_vento_ms <- getpath dados_completos [SKey "wind"; SKey "speed"] ;;
  timestamp_coleta <- getpath dados_completos [SKey "dt"] ;;
  Return (VDict
    [ ("cidade", cidade);
      ("pais", pais);
      ("temperatura_c", temperatura_c);
      ("sensacao_termica_c", sensacao_termica_c);
      ("temp_min_c", temp_min_c);
      ("temp_max_c", temp_max_c);
      ("umidade_pct", umidade_pct);
      ("descricao", descricao);
      ("velocidade_vento_ms", velocidade_vento_ms);
      ("timestamp_coleta", timestamp_coleta) ]).

(** [extrair_info_interesse]: None for None; otherwise the dict, or None
    when its evaluation raised KeyError.  No other exception is caught. *)
Definition extrair_info_interesse (dados_completos : value) : result value :=
  match dados_completos with
  | VNone => Return VNone
  | _ =>
      match info_extraida dados_completos with
      | Raise KeyError => Return VNone
      | r => r
      end
  end.

(** The places of the response that the extractor reads, in the order of
    the columns they end up in. *)
Definition caminhos : list (list subscript) :=
  [ [SKey "name"];
    [SKey "sys"; SKey "country"];
    [SKey "main"; SKey "temp"];
    [SKey "main"; SKey "feels_like"];
    [SKey "main"; SKey "temp_min"];
    [SKey "main"; SKey "temp_max"];
    [SKey "main"; SKey "humidity"];
    [SKey "weather"; SIdx 0; SKey "description"];
    [SKey "wind"; SKey "speed"];
    [SKey "dt"] ].

(** ** The database, as the two programs see it *)

(** A row of table [clima]: the columns written by the INSERT, by name,
    and the insertion timestamp.

    Modelled from the spec: the table's definition is not among the
    sources; the column [data_insercao] is the server-assigned timestamp
    of section 3, set when the row is written and used as the sort key. *)
Record row : Type := mkRow {
  fields : list (string * value);
  data_insercao : Z
}.

(** Which calls to the outside fail, if the program gets to make them.
    The first five and [rollback_fails] say that the call of the driver
    fails with a [psycopg2.Error].  [execute_refused] says that the
    driver refuses a parameter of [cursor.execute] (a text with a NUL
    character, or one that cannot be encoded) and raises ValueError
    before anything is sent.  [stdout_fails] says that printing the
    extracted values raises UnicodeEncodeError.  [cursor.close()] of a
    client-side cursor and [conn.close()] make no round trip to the
    server and are taken not to fail. *)
Record faults : Type := mkFaultsAll {
  connect_fails : bool;
  cursor_fails : bool;
  execute_fails : bool;
  commit_fails : bool;
  fetchall_fails : bool;
  execute_refused : bool;
  rollback_fails : bool;
  stdout_fails : bool
}.

(** The faults of the five calls, nothing else failing. *)
Definition mkFaults
    (connect cursor execute commit fetchall : bool) : faults :=
  mkFaultsAll connect cursor execute commit fetchall false false false.

Definition no_faults : faults := mkFaults false false false false false.

(** What the programs print. *)
Inductive message : Type :=
| MsgNenhumDado                 (* "Nenhum dado para salvar." *)
| MsgSalvo (cidade : value)     (* "Dados de '...' salvos no banco com sucesso!" *)
| MsgErroSalvar                 (* "Erro ao salvar no banco de dados: ..." *)
| MsgDadosExtraidos (d : value) (* "--- Dados Climáticos Extraídos ---" and the items *)
| MsgConexaoEstabelecida        (* "Conexão com o banco de dados estabelecida com sucesso." *)
| MsgErroConectar               (* "Erro ao conectar ao banco de dados: ..." *)
| MsgConexaoFechada.            (* "Conexão com o banco de dados fechada." *)

(** Every call made to the driver, and every line printed, in order. *)
Inductive event : Type :=
| EConnect
| ECursor
| EExecute (sql : string) (params : list value)
| EFetchall
| ECommit
| ERollback
| ECursorClose
| EClose
| EPrint (m : message).

Definition is_db_event (e : event) : bool :=
  match e with
  | EPrint _ => false
  | _ => true
  end.

Record world : Type := mkWorld {
  table : list row;          (* the committed rows, in insertion order *)
  clock : Z;                 (* the server's time *)
  db_faults : faults;        (* the condition of the database *)
  open_conns : nat;          (* connections opened and not yet closed *)
  trace : list event         (* most recent first *)
}.

(** The local variables of a call that talks to the database: whether
    [conn] and [cursor] are bound to an object, the rows inserted in the
    open transaction, and the result set held by the cursor. *)
Record frame : Type := mkFrame {
  conn : bool;
  cursor : bool;
  pending : list row;
  result_set : list row
}.

Definition frame0 : frame := mkFrame false false [] [].

(** Stateful, fallible code. *)
Definition M (A : Type) : Type := frame * world -> result A * (frame * world).

Definition ret {A} (a : A) : M A := fun s => (Return a, s).

Definition raise {A} (e : exn) : M A := fun s => (Raise e, s).

Definition bindM {A B} (m : M A) (k : A -> M B) : M B :=
  fun s =>
    match m s with
    | (Return a, s') => k a s'
    | (Raise e, s') => (Raise e, s')
    end.

Notation "x <~ m ;; k" := (bindM m (fun x => k))
  (at level 61, m at next level, right associativity).
Notation "m ;;; k" := (bindM m (fun _ => k))
  (at level 61, right associativity).

Definition lift {A} (r : result A) : M A := fun s => (r, s).

(** [try: body except ...: handler], where [handler] re-raises what the
    clause does not catch. *)
Definition try_except {A} (body : M A) (handler : exn -> M A) : M A :=
  fun s =>
    match body s with
    | (Raise e, s') => handler e s'
    | r => r
    end.

(** [try: body finally: fin]. *)
Definition try_finally {A} (body : M A) (fin : M unit) : M A :=
  fun s =>
    match body s with
    | (r, s') =>
        match fin s' with
        | (Return _, s'') => (r, s'')
        | (Raise e, s'') => (Raise e, s'')
        end
    end.

Definition when (b : bool) (m : M unit) : M unit :=
  if b then m else ret tt.

Definition get_frame : M frame := fun s => (Return (fst s), s).
Definition get_world : M world := fun s => (Return (snd s), s).

Definition emit (e : event) : M unit :=
  fun '(fr, w) =>
    (Return tt,
     (fr, mkWorld (table w) (clock w) (db_faults w) (open_conns w) (e :: trace w))).

Definition print (m : message) : M unit := emit (EPrint m).

(** A driver call that fails when the database says so. *)
Definition db_call (e : event) (fails : faults -> bool) : M unit :=
  emit e ;;;
  w <~ get_world ;;
  if fails (db_faults w) then raise DbError else ret tt.

(** [conn = psycopg2.connect(...)] *)
Definition connect : M unit :=
  db_call EConnect connect_fails ;;;
  fun '(fr, w) =>
    (Return tt,
     (mkFrame true (cursor fr) [] (result_set fr),
      mkWorld (table w) (clock w) (db_faults w) (S (open_conns w)) (trace w))).

(** [cursor = conn.cursor()] *)
Definition open_cursor : M unit :=
  db_call ECursor cursor_fails ;;;
  fun '(fr, w) => (Return tt, (mkFrame (conn fr) true (pending fr) [], w)).

(** [conn.commit()]: the rows of the transaction join the table. *)
Definition commit : M unit :=
  db_call ECommit commit_fails ;;;
  fun '(fr, w) =>
    (Return tt,
     (mkFrame (conn fr) (cursor fr) [] (result_set fr),
      mkWorld (table w ++ pending fr) (clock w) (db_faults w)
              (open_conns w) (trace w))).

(** [cursor.execute(sql, params)], as far as the driver is concerned:
    it first adapts the parameters, which is where it refuses one, and
    then sends the statement. *)
Definition driver_execute (sql : string) (params : list value) : M unit :=
  emit (EExecute sql params) ;;;
  w <~ get_world ;;
  if execute_refused (db_faults w) then raise ValueErr
  else if execute_fails (db_faults w) then raise DbError
  else ret tt.

(** [conn.rollback()]: the rows of the transaction are dropped. *)
Definition rollback : M unit :=
  db_call ERollback rollback_fails ;;;
  fun '(fr, w) =>
    (Return tt, (mkFrame (conn fr) (cursor fr) [] (result_set fr), w)).

(** [cursor.close()] *)
Definition cursor_close : M unit := emit ECursorClose.

(** [conn.close()]: an uncommitted transaction is dropped with it. *)
Definition close : M unit :=
  emit EClose ;;;
  fun '(fr, w) =>
    (Return tt,
     (mkFrame (conn fr) (cursor fr) [] (result_set fr),
      mkWorld (table w) (clock w) (db_faults w)
              (Nat.pred (open_conns w)) (trace w))).

(** [cursor.fetchall()] *)
Definition fetchall : M (list row) :=
  db_call EFetchall fetchall_fails ;;;
  fr <~ get_frame ;;
  ret (result_set fr).

(** Runs a call in a fresh frame and keeps the world. *)
Definition run {A} (m : M A) (w : world) : result A * world :=
  match m (frame0, w) with
  | (r, (_, w')) => (r, w')
  end.

(** ** The fetcher *)

(** What [requests.get] came back with: an answer with a status code and
    a body that parses as JSON or does not, or no answer at all. *)
Inductive http_outcome : Type :=
| Answered (status_code : Z) (json : option value)
| RequestFailed.

(** [buscar_dados_climaticos]: [raise_for_status] raises for the codes
    400 to 599, and every exception ends in [return None].  (Its prints,
    and the one of the extractor, are left out of the trace.) *)
Definition buscar_dados_climaticos (r : http_outcome) : value :=
  match r with
  | Answered status_code json =>
      if (400 <=? status_code) && (status_code <? 600) then VNone
      else match json with
           | Some dados => dados
           | None => VNone
           end
  | RequestFailed => VNone
  end.

(** ** The writer *)

(** The text of [query], a triple-quoted string: its line breaks and
    its indentation are part of it. *)
Definition insert_sql : string :=
  "
        INSERT INTO clima 
        (cidade, pais, temperatura_c, sensacao_termica_c, temp_min_c, 
         temp_max_c, umidade_pct, descricao, velocidade_vento_ms, timestamp_coleta)
        VALUES (%s, %s, %s, %s, %s, %s, %s, %s, %s, %s)
        ".

(** The column list of the INSERT. *)
Definition colunas : list string :=
  [ "cidade"; "pais"; "temperatura_c"; "sensacao_termica_c"; "temp_min_c";
    "temp_max_c"; "umidade_pct"; "descricao"; "velocidade_vento_ms";
    "timestamp_coleta" ].

(** The tuple [valores], built from the dict [dados]. *)
Definition valores (dados : value) : result (list value) :=
  cidade <- getitem dados (SKey "cidade") ;;
  pais <- getitem dados (SKey "pais") ;;
  temperatura_c <- getitem dados (SKey "temperatura_c") ;;
  sensacao_termica_c <- getitem dados (SKey "sensacao_termica_c") ;;
  temp_min_c <- getitem dados (SKey "temp_min_c") ;;
  temp_max_c <- getitem dados (SKey "temp_max_c") ;;
  umidade_pct <- getitem dados (SKey "umidade_pct") ;;
  descricao <- getitem dados (SKey "descricao") ;;
  velocidade_vento_ms <- getitem dados (SKey "velocidade_vento_ms") ;;
  timestamp_coleta <- getitem dados (SKey "timestamp_coleta") ;;
  Return [ cidade; pais; temperatura_c; sensacao_termica_c; temp_min_c;
           temp_max_c; umidade_pct; descricao; velocidade_vento_ms;
           timestamp_coleta ].

(** [cursor.execute(query, valores)]: the i-th value goes to the i-th
    column of the list, in a row of the open transaction. *)
Definition execute_insert (vs : list value) : M unit :=
  driver_execute insert_sql vs ;;;
  fun '(fr, w) =>
    (Return tt,
     (mkFrame (conn fr) (cursor fr)
              (pending fr ++ [mkRow (combine colunas vs) (clock w)])
              (result_set fr),
      w)).

Definition salvar_dados_no_bd_M (dados : value) : M unit :=
  match dados with
  | VNone => print MsgNenhumDado
  | _ =>
      try_finally
        (try_except
           (connect ;;;
            open_cursor ;;;
            vs <~ lift (valores dados) ;;
            execute_insert vs ;;;
            commit ;;;
            cidade <~ lift (getitem dados (SKey "cidade")) ;;
            print (MsgSalvo cidade))
           (fun e =>
              match e with
              | DbError =>
                  print MsgErroSalvar ;;;
                  fr <~ get_frame ;;
                  when (conn fr) rollback
              | _ => raise e
              end))
        (fr <~ get_frame ;;
         when (cursor fr) cursor_close ;;;
         when (conn fr) close)
  end.

Definition salvar_dados_no_bd (dados : value) (w : world) : result unit * world :=
  run (salvar_dados_no_bd_M dados) w.

(** ** The script's main block *)

(** The header and the loop that prints each item of the record: a
    value that the terminal cannot encode ends it with an exception. *)
Definition print_values (d : value) : M unit :=
  print (MsgDadosExtraidos d) ;;;
  w <~ get_world ;;
  if stdout_fails (db_faults w) then raise ValueErr else ret tt.

Definition main (r : http_outcome) (w : world) : result unit * world :=
  let dados_brutos := buscar_dados_climaticos r in
  if truthy dados_brutos then
    match extrair_info_interesse dados_brutos with
    | Raise e => (Raise e, w)
    | Return dados_filtrados =>
        if truthy dados_filtrados then
          run (print_values dados_filtrados ;;;
               salvar_dados_no_bd_M dados_filtrados) w
        else (Return tt, w)
    end
  else (Return tt, w).

Definition db_events (w : world) : list event := filter is_db_event (trace w).

(** ** The query service *)

(** [ORDER BY data_insercao DESC]: newest first.  Among rows with the
    same timestamp the database is free to choose; the model keeps the
    order of the table, and the statements about results speak of the
    rows returned and of their being sorted, which holds of every choice. *)
Fixpoint insert_desc (r : row) (l : list row) : list row :=
  match l with
  | [] => [r]
  | x :: l' =>
      if data_insercao x <=? data_insercao r then r :: x :: l'
      else x :: insert_desc r l'
  end.

Definition order_by_data_insercao_desc (l : list row) : list row :=
  fold_right insert_desc [] l.

(** The pattern language of LIKE, as the database documents it: [%]
    stands for any run of characters, [_] for any one character, and a
    backslash makes the character after it stand for itself.  ILIKE is
    LIKE with letters compared without regard to case.  A character of
    a text is one [ascii]. *)
Inductive tok : Type :=
| TAny
| TOne
| TLit (c : ascii).

(** [esc] says that the previous character was an unescaped backslash.
    A pattern that ends in one is refused by the database. *)
Fixpoint like_tokens (esc : bool) (p : string) : option (list tok) :=
  match p with
  | EmptyString => if esc then None else Some []
  | String c p' =>
      if esc then option_map (cons (TLit c)) (like_tokens false p')
      else if Ascii.eqb c "\" then like_tokens true p'
      else if Ascii.eqb c "%" then option_map (cons TAny) (like_tokens false p')
      else if Ascii.eqb c "_" then option_map (cons TOne) (like_tokens false p')
      else option_map (cons (TLit c)) (like_tokens false p')
  end.

(** A text with [f] applied to each of its characters. *)
Fixpoint smap (f : ascii -> ascii) (s : string) : string :=
  match s with
  | EmptyString => EmptyString
  | String c s' => String (f c) (smap f s')
  end.

Section QueryService.

(** The case folding of the database's locale. *)
Variable lower : ascii -> ascii.

(** A character of the pattern that stands for itself matches a
    character of the text when the two are the same letter. *)
Fixpoint like_match (p : list tok) (s : string) {struct p} : bool :=
  match p with
  | [] => match s with EmptyString => true | _ => false end
  | TOne :: p' =>
      match s with
      | EmptyString => false
      | String _ s' => like_match p' s'
      end
  | TLit c :: p' =>
      match s with
      | EmptyString => false
      | String d s' => Ascii.eqb (lower c) (lower d) && like_match p' s'
      end
  | TAny :: p' =>
      (fix skip (s : string) : bool :=
         like_match p' s
         || match s with
            | EmptyString => false
            | String _ s' => skip s'
            end) s
  end.

(** [s ILIKE p]; [None] when the pattern is refused. *)
Definition ilike (s p : string) : option bool :=
  option_map (fun t => like_match t s) (like_tokens false p).

(** [WHERE cidade ILIKE p], on one row; a row whose [cidade] is not a
    text is not selected. *)
Definition where_cidade_ilike (p : string) (r : row) : bool :=
  match dict_get "cidade" (fields r) with
  | Some (VStr s) =>
      match ilike s p with
      | Some b => b
      | None => false
      end
  | _ => false
  end.

Definition select_all_sql : string :=
  "SELECT * FROM clima ORDER BY data_insercao DESC".

Definition select_cidade_sql : string :=
  "SELECT * FROM clima WHERE cidade ILIKE %s ORDER BY data_insercao DESC".

(** [cursor.execute(query)] of the first endpoint.  The statement has no
    parameter for the driver to refuse; asking the same question of the
    world as for the other statements only adds runs to the model. *)
Definition execute_select_all : M unit :=
  driver_execute select_all_sql [] ;;;
  fun '(fr, w) =>
    (Return tt,
     (mkFrame (conn fr) (cursor fr) (pending fr)
              (order_by_data_insercao_desc (table w)),
      w)).

(** [cursor.execute(query, (p,))] of the second endpoint; a refused
    pattern is a database error. *)
Definition execute_select_cidade (p : string) : M unit :=
  driver_execute select_cidade_sql [VStr p] ;;;
  match like_tokens false p with
  | None => raise DbError
  | Some _ =>
      fun '(fr, w) =>
        (Return tt,
         (mkFrame (conn fr) (cursor fr) (pending fr)
                  (order_by_data_insercao_desc
                     (filter (where_cidade_ilike p) (table w))),
          w))
  end.

(** [get_db_connection]: the connection, or None.  The frame's [conn]
    says which. *)
Definition get_db_connection : M bool :=
  try_except
    (connect ;;;
     print MsgConexaoEstabelecida ;;;
     ret true)
    (fun e =>
       match e with
       | DbError => print MsgErroConectar ;;; ret false
       | _ => raise e
       end).

(** The [finally] clause of the two endpoints. *)
Definition close_and_report : M unit :=
  fr <~ get_frame ;;
  when (conn fr) (close ;;; print MsgConexaoFechada).

Definition get_clima_todos_M : M (list row) :=
  conn <~ get_db_connection ;;
  if negb conn then raise (HTTPException 500)
  else
    try_finally
      (try_except
         (open_cursor ;;;
          execute_select_all ;;;
          registros_clima <~ fetchall ;;
          ret registros_clima)
         (fun e =>
            match e with
            | DbError => raise (HTTPException 500)
            | _ => raise e
            end))
      close_and_report.

Definition get_clima_por_cidade_M (cidade : string) : M (list row) :=
  conn <~ get_db_connection ;;
  if negb conn then raise (HTTPException 500)
  else
    try_finally
      (try_except
         (open_cursor ;;;
          execute_select_cidade ("%" ++ cidade ++ "%") ;;;
          registros <~ fetchall ;;
          match registros with
          | [] => raise (HTTPException 404)
          | _ => ret registros
          end)
         (fun e =>
            match e with
            | DbError => raise (HTTPException 500)
            | _ => raise e
            end))
      close_and_report.

Definition get_clima_todos (w : world) : result (list row) * world :=
  run get_clima_todos_M w.

Definition get_clima_por_cidade (cidade : string) (w : world)
  : result (list row) * world :=
  run (get_clima_por_cidade_M cidade) w.

End QueryService.

(** What the web framework answers: 200 with the returned list as a JSON
    array, the status of an HTTPException, 500 for any other exception. *)
Record response : Type := mkResponse {
  status : Z;
  body : option (list row)
}.

Definition respond (r : result (list row)) : response :=
  match r with
  | Return registros => mkResponse 200 (Some registros)
  | Raise (HTTPException s) => mkResponse s None
  | Raise _ => mkResponse 500 None
  end.

(** Folding of the letters A to Z, for the examples. *)
Definition ascii_lower (c : ascii) : ascii :=
  let n := nat_of_ascii c in
  if (65 <=? n)%nat && (n <=? 90)%nat then ascii_of_nat (n + 32) else c.

Definition linha (cidade : string) (t : Z) : row :=
  mkRow [("cidade", VStr cidade); ("pais", VStr "BR")] t.

(** "Florianópolis", the accented letter being character 243. *)
Definition Florianopolis : string := "Florian" ++ String "243" "polis".

(** ** Predicates used in the statements *)

(** The two bounds of the data model (section 3 of the specification),
    on a Python value. *)
Definition humidity_in_range (v : value) : bool :=
  match v with
  | VInt z => (0 <=? z) && (z <=? 100)
  | _ => false
  end.

Definition wind_non_negative (v : value) : bool :=
  match v with
  | VInt z => 0 <=? z
  | VFloat f => PrimFloat.leb 0%float f
  | _ => false
  end.

(** A response of the expected shape, from which fields may be absent:
    an object whose sections [sys], [main] and [wind], when present, are
    objects, and whose [weather], when present, is a list that starts
    with an object. *)
Definition section_ok (k : string) (d : list (string * value)) : bool :=
  match dict_get k d with
  | None => true
  | Some (VDict _) => true
  | Some _ => false
  end.

Definition weather_ok (d : list (string * value)) : bool :=
  match dict_get "weather" d with
  | None => true
  | Some (VList (VDict _ :: _)) => true
  | Some _ => false
  end.

Definition well_shaped (raw : value) : bool :=
  match raw with
  | VDict d =>
      section_ok "sys" d && section_ok "main" d && section_ok "wind" d
      && weather_ok d
  | _ => false
  end.

(** A field of the response is present when its path can be followed. *)
Definition present (raw : value) (p : list subscript) : Prop :=
  exists v, getpath raw p = Return v.

(** A record with the ten keys. *)
Definition fully_populated (dados : value) : Prop :=
  exists d, dados = VDict d /\ Forall (fun k => dict_get k d <> None) colunas.

(** The calls of the writer, and those of a read endpoint, that can
    fail. *)
Definition writer_fault (f : faults) : bool :=
  connect_fails f || cursor_fails f || execute_fails f || commit_fails f
  || execute_refused f.

Definition read_fault (f : faults) : bool :=
  connect_fails f || cursor_fails f || execute_fails f || fetchall_fails f
  || execute_refused f.

(** A call of the writer fails with an error of the database: a
    [psycopg2.Error] from connect, cursor, execute or commit (the last
    two are not reached when the driver refuses a parameter). *)
Definition writer_db_error (f : faults) : bool :=
  connect_fails f || cursor_fails f
  || (negb (execute_refused f) && (execute_fails f || commit_fails f)).

(** The exception that ends a read endpoint when one of its calls
    fails: the HTTPException 500 that the endpoint raises itself, or the
    ValueError of the driver, which the endpoint does not catch. *)
Definition read_error (f : faults) : exn :=
  if connect_fails f || cursor_fails f then HTTPException 500
  else if execute_refused f then ValueErr
  else HTTPException 500.

(** A text has a NUL character. *)
Fixpoint has_nul (q : string) : bool :=
  match q with
  | EmptyString => false
  | String c q' => Ascii.eqb c "000" || has_nul q'
  end.

(** The events a call added to the trace. *)
Definition added (w w' : world) (new : list event) : Prop :=
  trace w' = (new ++ trace w)%list.

Definition is_execute (e : event) : bool :=
  match e with
  | EExecute _ _ => true
  | _ => false
  end.

Definition is_connect (e : event) : bool :=
  match e with
  | EConnect => true
  | _ => false
  end.

Definition is_success_message (e : event) : bool :=
  match e with
  | EPrint (MsgSalvo _) => true
  | _ => false
  end.

(** [a] comes before [b] in a result that is newest first. *)
Definition newest_first (a b : row) : Prop :=
  data_insercao b <= data_insercao a.

(** [q in s]: [q] occurs in [s] as it is written. *)
Fixpoint contains (q s : string) : bool :=
  String.prefix q s
  || match s with
     | EmptyString => false
     | String _ s' => contains q s'
     end.

(** A text as a pattern in which every character stands for itself. *)
Fixpoint lits (q : string) : list tok :=
  match q with
  | EmptyString => []
  | String c q' => TLit c :: lits q'
  end.

(** No character of a text is special in a LIKE pattern. *)
Fixpoint plain (q : string) : bool :=
  match q with
  | EmptyString => true
  | String c q' =>
      negb (Ascii.eqb c "\") && negb (Ascii.eqb c "%")
      && negb (Ascii.eqb c "_") && plain q'
  end.

(** ** Inputs of the examples *)

(** A response of the weather service, with the given weather list. *)
Definition resposta_exemplo (weather : value) : value :=
  VDict
    [ ("name", VStr "Recife");
      ("sys", VDict [("country", VStr "BR")]);
      ("main", VDict [("temp", VFloat 28.5%float); ("feels_like", VFloat 31%float);
                      ("temp_min", VFloat 27%float); ("temp_max", VFloat 30%float);
                      ("humidity", VInt 74)]);
      ("weather", weather);
      ("wind", VDict [("speed", VFloat 4.5%float)]);
      ("dt", VInt 1700000000) ].



(** An empty table, at time 1000. *)
Definition world0 (f : faults) : world := mkWorld [] 1000 f 0 [].

(** The record extracted from the example response. *)
Definition registro_exemplo : value :=
  VDict
    [ ("cidade", VStr "Recife"); ("pais", VStr "BR");
      ("temperatura_c", VFloat 28.5%float);
      ("sensacao_termica_c", VFloat 31%float);
      ("temp_min_c", VFloat 27%float); ("temp_max_c", VFloat 30%float);
      ("umidade_pct", VInt 74); ("descricao", VStr "nublado");
      ("velocidade_vento_ms", VFloat 4.5%float);
      ("timestamp_coleta", VInt 1700000000) ].

(** The example response with other measurements. *)
Definition resposta_medidas (humidity speed : value) : value :=
  VDict
    [ ("name", VStr "Recife");
      ("sys", VDict [("country", VStr "BR")]);
      ("main", VDict [("temp", VFloat 28.5%float); ("feels_like", VFloat 31%float);
                      ("temp_min", VFloat 27%float); ("temp_max", VFloat 30%float);
                      ("humidity", humidity)]);
      ("weather", VList [VDict [("description", VStr "nublado")]]);
      ("wind", VDict [("speed", speed)]);
      ("dt", VInt 1700000000) ].

(** The example response without [main.temp]. *)
Definition resposta_sem_temp : value :=
  VDict
    [ ("name", VStr "Recife");
      ("sys", VDict [("country", VStr "BR")]);
      ("main", VDict [("feels_like", VFloat 31%float);
                      ("temp_min", VFloat 27%float); ("temp_max", VFloat 30%float);
                      ("humidity", VInt 74)]);
      ("weather", VList [VDict [("description", VStr "nublado")]]);
      ("wind", VDict [("speed", VFloat 4.5%float)]);
      ("dt", VInt 1700000000) ].

(** The example response without [main.temp] and with a null [sys]. *)
Definition resposta_sem_temp_sys_nulo : value :=
  VDict
    [ ("name", VStr "Recife");
      ("sys", VNone);
      ("main", VDict [("feels_like", VFloat 31%float);
                      ("temp_min", VFloat 27%float); ("temp_max", VFloat 30%float);
                      ("humidity", VInt 74)]);
      ("weather", VList [VDict [("description", VStr "nublado")]]);
      ("wind", VDict [("speed", VFloat 4.5%float)]);
      ("dt", VInt 1700000000) ].

(** A table of four rows, not in the order of their timestamps. *)
Definition world_exemplo (f : faults) : world :=
  mkWorld [ linha "Recife" 5; linha Florianopolis 7; linha "recife" 9;
            linha "Natal" 7 ]
          1000 f 0 [].

(** ** Configuration read at start-up *)

(** [os.environ], after [load_dotenv]. *)
Definition environ : Type := list (string * string).

Fixpoint environ_get (k : string) (env : environ) : option string :=
  match env with
  | [] => None
  | (k', v) :: env' => if String.eqb k k' then Some v else environ_get k env'
  end.

(** How the top level of a module ends: the module is loaded, or the
    ValueError of a check, or the KeyError of [os.environ[k]]. *)
Inductive startup (A : Type) : Type :=
| Started (a : A)
| ValueError (what : string)
| EnvKeyError (k : string).
Arguments Started {A} a.
Arguments ValueError {A} what.
Arguments EnvKeyError {A} k.

(** [not x], for the result of [os.environ.get]. *)
Definition not_set (o : option string) : bool :=
  match o with
  | None => true
  | Some v => String.eqb v ""
  end.

(** The top level of [scripts/extrair_clima.py]. *)
Module ScriptConfig.

Record config : Type := mkConfig {
  API_KEY : option string;
  BASE_URL : string;
  DB_NAME : option string;
  DB_USER : option string;
  DB_PASSWORD : option string;
  DB_HOST : string;
  DB_PORT : string
}.

Definition load (env : environ) : startup config :=
  let api_key := environ_get "API_KEY" env in
  let db_name := environ_get "POSTGRES_DB" env in
  let db_user := environ_get "POSTGRES_USER" env in
  let db_password := environ_get "POSTGRES_PASSWORD" env in
  let db_host := "localhost" in
  let db_port :=
    match environ_get "DB_PORT" env with
    | Some p => p
    | None => "5432"
    end in
  if not_set api_key then ValueError "API_KEY"
  else if not_set db_password then ValueError "DB_PASSWORD"
  else Started (mkConfig api_key
                         "https://api.openweathermap.org/data/2.5/weather"
                         db_name db_user db_password db_host db_port).

End ScriptConfig.

(** The top level of [api/main.py]. *)
Module ApiConfig.

Record config : Type := mkConfig {
  DB_NAME : string;
  DB_USER : string;
  DB_PASSWORD : string;
  DB_HOST : string;
  DB_PORT : string
}.

Definition load (env : environ) : startup config :=
  match environ_get "POSTGRES_DB" env with
  | None => EnvKeyError "POSTGRES_DB"
  | Some db_name =>
      match environ_get "POSTGRES_USER" env with
      | None => EnvKeyError "POSTGRES_USER"
      | Some db_user =>
          match environ_get "POSTGRES_PASSWORD" env with
          | None => EnvKeyError "POSTGRES_PASSWORD"
          | Some db_password =>
              match environ_get "DB_HOST" env with
              | None => EnvKeyError "DB_HOST"
              | Some db_host =>
                  Started (mkConfig db_name db_user db_password db_host
                             match environ_get "DB_PORT" env with
                             | Some p => p
                             | None => "5432"
                             end)
              end
          end
      end
  end.

End ApiConfig.

(** ** More predicates for the statements *)

(** The top-level keys of the response that the extractor reads. *)
Definition chaves_lidas : list string :=
  [ "name"; "sys"; "main"; "weather"; "wind"; "dt" ].

(** An answer of the weather service from which the fetcher gets no
    data: an error status, a body that is not JSON, or no answer. *)
Definition fetch_failed (r : http_outcome) : Prop :=
  match r with
  | Answered status_code json =>
      400 <= status_code < 600 \/ json = None
  | RequestFailed => True
  end.


(** The city of a row, when it is a text. *)
Definition cidade_of (r : row) : option string :=
  match dict_get "cidade" (fields r) with
  | Some (VStr s) => Some s
  | _ => None
  end.

(** The world after the script has printed the extracted record. *)
Definition printed (d : value) (w : world) : world :=
  mkWorld (table w) (clock w) (db_faults w) (open_conns w)
          (EPrint (MsgDadosExtraidos d) :: trace w).

(** One run of the writer after another, on the records of a list. *)
Definition salvar_todos (ds : list value) (w : world) : world :=
  fold_left (fun w' dados => snd (salvar_dados_no_bd dados w')) ds w.

(** An environment of a development machine. *)
Definition environ_exemplo : environ :=
  [ ("API_KEY", "abc123"); ("POSTGRES_DB", "clima"); ("POSTGRES_USER", "app");
    ("POSTGRES_PASSWORD", "segredo"); ("DB_HOST", "db") ].

(** * Properties *)

(** ** Subscription *)

Lemma seq_index_0_cons {A} (x : A) (l : list A) :
  seq_index 0 (x :: l) = Some x.
Proof.
  unfold seq_index.
  assert (H : (0 <? Z.of_nat (List.length (x :: l))) = true).
  { apply Z.ltb_lt. simpl List.length. lia. }
  rewrite H. reflexivity.
Qed.

Lemma getpath_dict_key (d : list (string * value)) (k : string) (p : list subscript) :
  getpath (VDict d) (SKey k :: p) =
  match dict_get k d with
  | Some x => getpath x p
  | None => Raise KeyError
  end.
Proof. simpl. destruct (dict_get k d); reflexivity. Qed.

(** In a response of the expected shape a field is present or its key is
    missing: no subscription raises anything but KeyError. *)
Lemma well_shaped_getpath (raw : value) (p : list subscript) :
  well_shaped raw = true ->
  In p caminhos ->
  present raw p \/ getpath raw p = Raise KeyError.
Proof.
  intros Hws Hin.
  destruct raw; try discriminate.
  unfold well_shaped, section_ok, weather_ok in Hws.
  repeat (apply andb_prop in Hws; destruct Hws as [Hws ?]).
  unfold present.
  simpl in Hin.
  repeat (destruct Hin as [<- | Hin]; [ rewrite getpath_dict_key | ]);
    try contradiction;
    match goal with
    | |- context [dict_get ?k d] => destruct (dict_get k d) as [x|] eqn:E
    end;
    try (right; reflexivity);
    try (left; eexists; reflexivity);
    try (destruct x; try discriminate;
         simpl; match goal with
                | |- context [dict_get ?k ?e] => destruct (dict_get k e)
                end; [left; eexists; reflexivity | right; reflexivity]).
  (* weather *)
  destruct x; try discriminate.
  destruct l as [|x0 l]; try discriminate.
  destruct x0; try discriminate.
  simpl getpath.
  destruct (dict_get "description" d0);
    [left; eexists; reflexivity | right; reflexivity].
Qed.

(** ** The extractor *)

Example extrai_exemplo :
  extrair_info_interesse
    (resposta_exemplo (VList [VDict [("description", VStr "nublado")]]))
  = Return registro_exemplo.
Proof. reflexivity. Qed.

(** What a returned value of the extractor can be: None, or the dict of
    the ten values read from the response. *)
Lemma extrair_Return_inv (raw rec : value) :
  extrair_info_interesse raw = Return rec ->
  rec = VNone \/
  exists vs,
    map (getpath raw) caminhos = map Return vs /\
    rec = VDict (combine colunas vs).
Proof.
  unfold extrair_info_interesse.
  destruct raw; try (simpl; discriminate); [intros [= <-]; now left | ].
  unfold info_extraida, caminhos. cbn [map].
  repeat match goal with
         | |- context [getpath ?a ?b] =>
             let r := fresh "r" in
             let e := fresh "e" in
             destruct (getpath a b) as [r|e]; cbn [bind];
             [ | destruct e; intros [= <-]; now left ]
         end.
  intros [= <-]; right.
  eexists [_; _; _; _; _; _; _; _; _; _]. split; reflexivity.
Qed.

(** The extractor returns a record exactly when the ten fields are
    present. *)
Lemma extrair_all_present (raw : value) (vs : list value) :
  raw <> VNone ->
  map (getpath raw) caminhos = map Return vs ->
  extrair_info_interesse raw = Return (VDict (combine colunas vs)).
Proof.
  intros Hn H.
  unfold caminhos in H. cbn [map] in H.
  do 10 (destruct vs as [|? vs]; [discriminate|]).
  destruct vs; [|discriminate].
  cbn [map] in H.
  injection H as H1 H2 H3 H4 H5 H6 H7 H8 H9 H10.
  unfold extrair_info_interesse, info_extraida.
  cbn [getpath] in *.
  rewrite H1, H2, H3, H4, H5, H6, H7, H8, H9, H10. cbn [bind].
  destruct raw; try reflexivity. contradiction.
Qed.

(** In a response of the expected shape, a missing field makes the
    extractor return None. *)
Lemma extrair_missing_field (raw : value) (p : list subscript) :
  well_shaped raw = true ->
  In p caminhos ->
  ~ present raw p ->
  extrair_info_interesse raw = Return VNone.
Proof.
  intros Hws Hin Hmiss.
  assert (Hall : forall q, In q caminhos ->
                           present raw q \/ getpath raw q = Raise KeyError)
    by (intros q Hq; now apply well_shaped_getpath).
  destruct raw; try discriminate.
  unfold extrair_info_interesse, info_extraida.
  unfold caminhos in Hall, Hin.
  repeat match goal with
         | |- context [bind (getpath ?a ?b) _] =>
             let H := fresh "H" in
             destruct (Hall b) as [[? H] | H];
             [ simpl; tauto | rewrite H; cbn [bind] | rewrite H; reflexivity ]
         end.
  exfalso. apply Hmiss. unfold present.
  simpl in Hin.
  repeat (destruct Hin as [<- | Hin]; [eexists; eassumption|]).
  contradiction.
Qed.

(** C2: an empty weather list makes [weather[0]] raise IndexError, which
    the [except KeyError] clause does not catch: the extractor neither
    returns a record nor returns the failure value, and the script ends
    with the exception. *)
Theorem extrair_empty_weather_raises :
  extrair_info_interesse (resposta_exemplo (VList [])) = Raise IndexError
  /\ forall w,
       main (Answered 200 (Some (resposta_exemplo (VList [])))) w
       = (Raise IndexError, w).
Proof. split; reflexivity. Qed.

(** A section that is not an object is a TypeError, which is not caught
    either. *)
Example extrair_null_section_raises :
  extrair_info_interesse (VDict [("name", VStr "Recife"); ("sys", VNone)])
  = Raise TypeError.
Proof. reflexivity. Qed.

Lemma getitem_combine_colunas (vs : list value) :
  List.length vs = 10%nat ->
  map (fun k => getitem (VDict (combine colunas vs)) (SKey k)) colunas
  = map Return vs.
Proof.
  intros H.
  do 10 (destruct vs as [|? vs]; [discriminate|]).
  destruct vs; [reflexivity | discriminate].
Qed.

Lemma map_Return_length {A B} (f : A -> result B) (l : list A) (vs : list B) :
  map f l = map Return vs -> List.length vs = List.length l.
Proof.
  intros H. apply (f_equal (@List.length _)) in H.
  rewrite !length_map in H. congruence.
Qed.

Lemma fully_populated_combine (vs : list value) :
  List.length vs = 10%nat -> fully_populated (VDict (combine colunas vs)).
Proof.
  intros H.
  do 10 (destruct vs as [|? vs]; [discriminate|]).
  destruct vs; [|discriminate].
  eexists; split; [reflexivity|].
  unfold colunas. repeat constructor; discriminate.
Qed.

(** C7 (as stated, refuted): a response with humidity 150 and wind speed
    -3 is extracted as it is, and the script stores it when the database
    takes it; the record breaks both bounds. *)
Lemma extrair_keeps_out_of_range_values :
  exists rec u v,
    extrair_info_interesse (resposta_medidas (VInt 150) (VFloat (-3)%float))
    = Return rec
    /\ getitem rec (SKey "umidade_pct") = Return u
    /\ humidity_in_range u = false
    /\ getitem rec (SKey "velocidade_vento_ms") = Return v
    /\ wind_non_negative v = false
    /\ map (fun r => dict_get "umidade_pct" (fields r))
          (table (snd (main (Answered 200
                               (Some (resposta_medidas (VInt 150)
                                                       (VFloat (-3)%float))))
                            (world0 no_faults))))
       = [Some (VInt 150)].
Proof.
  eexists; eexists; eexists.
  split; [reflexivity|].
  split; [reflexivity|].
  split; [reflexivity|].
  split; [reflexivity|].
  split; reflexivity.
Qed.

Lemma extrair_record_fields (raw rec : value) :
  extrair_info_interesse raw = Return rec ->
  rec <> VNone ->
  fully_populated rec
  /\ map (fun k => getitem rec (SKey k)) colunas = map (getpath raw) caminhos
  /\ Forall (present raw) caminhos.
Proof.
  intros H Hn.
  destruct (extrair_Return_inv _ _ H) as [-> | [vs [Hvs ->]]]; [contradiction|].
  pose proof (map_Return_length _ _ _ Hvs) as Hlen. simpl in Hlen.
  pose proof (getitem_combine_colunas vs Hlen) as Hget.
  split; [now apply fully_populated_combine|].
  split; [congruence|].
  rewrite Forall_forall. intros p Hp.
  apply (in_map (getpath raw)) in Hp. rewrite Hvs in Hp.
  apply in_map_iff in Hp. destruct Hp as [v [Hv _]].
  exists v. now symmetry.
Qed.

(** C7 (amended): a record returned by the extractor has the ten keys,
    and the value under each is the value found in the response, as it
    is.  No bound is checked: humidity and wind speed are in range in
    the record exactly when they are in the response. *)
Theorem extrair_copies_fields (raw rec : value) :
  extrair_info_interesse raw = Return rec ->
  rec <> VNone ->
  fully_populated rec
  /\ map (fun k => getitem rec (SKey k)) colunas = map (getpath raw) caminhos
  /\ Forall (present raw) caminhos
  /\ getitem rec (SKey "umidade_pct") = getpath raw [SKey "main"; SKey "humidity"]
  /\ getitem rec (SKey "velocidade_vento_ms") = getpath raw [SKey "wind"; SKey "speed"].
Proof.
  intros H Hn.
  destruct (extrair_record_fields _ _ H Hn) as [Hfull [Hmap Hall]].
  repeat split; try assumption.
  - exact (f_equal (fun l => nth 6 l (Raise KeyError)) Hmap).
  - exact (f_equal (fun l => nth 8 l (Raise KeyError)) Hmap).
Qed.

Lemma extrair_copies_fields_witness :
  fully_populated registro_exemplo
  /\ getitem registro_exemplo (SKey "umidade_pct") = Return (VInt 74).
Proof.
  destruct (extrair_copies_fields
              (resposta_medidas (VInt 74) (VFloat 4.5%float))
              registro_exemplo) as [H1 [_ [_ [H4 _]]]].
  - reflexivity.
  - discriminate.
  - split; [exact H1 | exact H4].
Defined.

(** The script touches the database only after the extractor returned a
    record: in every other run the world is left as it was. *)
Lemma main_without_record (r : http_outcome) (w : world) :
  (forall d, extrair_info_interesse (buscar_dados_climaticos r) <> Return (VDict d)) ->
  snd (main r w) = w.
Proof.
  intros H. unfold main.
  destruct (truthy (buscar_dados_climaticos r)); [|reflexivity].
  destruct (extrair_info_interesse (buscar_dados_climaticos r)) as [v|e] eqn:E;
    [|reflexivity].
  destruct (extrair_Return_inv _ _ E) as [-> | [vs [_ ->]]]; [reflexivity|].
  exfalso. now apply (H (combine colunas vs)).
Qed.

(** The writer does nothing to the database when it is given None. *)
Lemma salvar_None (w : world) :
  fst (salvar_dados_no_bd VNone w) = Return tt
  /\ table (snd (salvar_dados_no_bd VNone w)) = table w
  /\ open_conns (snd (salvar_dados_no_bd VNone w)) = open_conns w
  /\ trace (snd (salvar_dados_no_bd VNone w)) = EPrint MsgNenhumDado :: trace w.
Proof. destruct w. repeat split. Qed.

(** C8: a response from which [main.temp] is missing and whose [sys] is
    null.  The field is missing, yet the extractor does not return None:
    reading [sys] raises TypeError, which [except KeyError] does not
    catch, and the script ends with it.  Nothing is written: the world
    is left as it was. *)
Theorem missing_temp_null_sys_raises :
  ~ present resposta_sem_temp_sys_nulo [SKey "main"; SKey "temp"]
  /\ extrair_info_interesse resposta_sem_temp_sys_nulo = Raise TypeError
  /\ forall w,
       main (Answered 200 (Some resposta_sem_temp_sys_nulo)) w
       = (Raise TypeError, w).
Proof.
  split; [intros [v Hv]; discriminate Hv|].
  split; [reflexivity | intros w; reflexivity].
Qed.

(** X27: when a required field such as [main.temp] is missing from a
    response of the expected shape (its sections are objects and its
    weather list starts with an object), the extractor returns None, the
    script ends without calling the writer and leaves the world as it
    was, and the writer itself makes no call to the database when it is
    given None. *)
Theorem missing_field_no_write (r : http_outcome) (p : list subscript) (w : world) :
  well_shaped (buscar_dados_climaticos r) = true ->
  In p caminhos ->
  ~ present (buscar_dados_climaticos r) p ->
  extrair_info_interesse (buscar_dados_climaticos r) = Return VNone
  /\ main r w = (Return tt, w)
  /\ db_events (snd (salvar_dados_no_bd VNone w)) = db_events w
  /\ table (snd (salvar_dados_no_bd VNone w)) = table w.
Proof.
  intros Hws Hin Hmiss.
  pose proof (extrair_missing_field _ _ Hws Hin Hmiss) as E.
  split; [exact E|].
  split.
  - unfold main. rewrite E.
    destruct (truthy (buscar_dados_climaticos r)); reflexivity.
  - destruct (salvar_None w) as [_ [Ht [_ Htr]]].
    split; [|exact Ht].
    unfold db_events. rewrite Htr. reflexivity.
Qed.

Lemma missing_field_no_write_witness :
  main (Answered 200 (Some resposta_sem_temp)) (world0 no_faults)
  = (Return tt, world0 no_faults).
Proof.
  apply (missing_field_no_write
           (Answered 200 (Some resposta_sem_temp))
           [SKey "main"; SKey "temp"] (world0 no_faults)).
  - reflexivity.
  - simpl. tauto.
  - intros [v Hv]. discriminate Hv.
Defined.

Lemma getpath_weather_first (d : list (string * value)) (first : value) (rest : list value) :
  dict_get "weather" d = Some (VList (first :: rest)) ->
  getpath (VDict d) [SKey "weather"; SIdx 0; SKey "description"]
  = getitem first (SKey "description").
Proof.
  intros Hw. rewrite getpath_dict_key, Hw. cbn [getpath].
  unfold getitem at 1. rewrite seq_index_0_cons. cbn [bind].
  destruct (getitem first (SKey "description")); reflexivity.
Qed.

(** The extractor reads a response object only through six of its keys. *)
Lemma info_extraida_ext (d d' : list (string * value)) :
  (forall p, In p caminhos -> getpath (VDict d) p = getpath (VDict d') p) ->
  extrair_info_interesse (VDict d) = extrair_info_interesse (VDict d').
Proof.
  intros H. unfold extrair_info_interesse, info_extraida.
  unfold caminhos in H.
  repeat match goal with
         | |- context [getpath (VDict d) ?q] =>
             rewrite (H q) by (simpl; tauto)
         end.
  reflexivity.
Qed.

Lemma Forall_present_values (raw : value) (l : list (list subscript)) :
  Forall (present raw) l ->
  exists vs, map (getpath raw) l = map Return vs.
Proof.
  induction 1 as [|p l [v Hv] _ [vs IH]].
  - now exists [].
  - exists (v :: vs). simpl. now rewrite Hv, IH.
Qed.

(** The extractor on two responses that differ in the tail of the
    weather list only. *)
Lemma extrair_weather_tail
    (d d' : list (string * value)) (first : value) (rest rest' : list value) :
  (forall k, k <> "weather" -> dict_get k d' = dict_get k d) ->
  dict_get "weather" d = Some (VList (first :: rest)) ->
  dict_get "weather" d' = Some (VList (first :: rest')) ->
  extrair_info_interesse (VDict d') = extrair_info_interesse (VDict d).
Proof.
  intros Hother Hw Hw'.
  apply info_extraida_ext. intros p Hp.
  unfold caminhos in Hp. simpl in Hp.
  repeat (destruct Hp as [<- | Hp];
          [ first [ rewrite !getpath_dict_key;
                    rewrite Hother by discriminate; reflexivity
                  | rewrite (getpath_weather_first _ _ _ Hw),
                      (getpath_weather_first _ _ _ Hw'); reflexivity ] | ]).
  contradiction.
Qed.

(** C10: of a non-empty weather list only the first element is read.
    Two responses that differ in the rest of the list only are extracted
    to the same result; the description of a returned record is the one
    of the first element; and when the first element has a description
    and the nine other fields can be read, a record is returned, for
    both responses the same, whose description is that of the first
    element. *)
Theorem descricao_from_first_weather
    (d d' : list (string * value)) (first : value) (rest rest' : list value) :
  (forall k, k <> "weather" -> dict_get k d' = dict_get k d) ->
  dict_get "weather" d = Some (VList (first :: rest)) ->
  dict_get "weather" d' = Some (VList (first :: rest')) ->
  extrair_info_interesse (VDict d') = extrair_info_interesse (VDict d)
  /\ (forall rec,
        extrair_info_interesse (VDict d) = Return rec ->
        rec <> VNone ->
        getitem rec (SKey "descricao") = getitem first (SKey "description"))
  /\ (forall v,
        getitem first (SKey "description") = Return v ->
        (forall p, In p caminhos ->
                   p <> [SKey "weather"; SIdx 0; SKey "description"] ->
                   present (VDict d) p) ->
        exists rec,
          extrair_info_interesse (VDict d) = Return (VDict rec)
          /\ extrair_info_interesse (VDict d') = Return (VDict rec)
          /\ dict_get "descricao" rec = Some v).
Proof.
  intros Hother Hw Hw'.
  pose proof (extrair_weather_tail d d' first rest rest' Hother Hw Hw') as Heq.
  split; [exact Heq|]. split.
  - intros rec H Hn.
    destruct (extrair_record_fields _ _ H Hn) as [_ [Hmap _]].
    pose proof (f_equal (fun l => nth 7 l (Raise KeyError)) Hmap) as H8.
    cbn beta in H8. unfold colunas, caminhos in H8. cbn [map nth] in H8.
    rewrite H8. now apply getpath_weather_first with (rest := rest).
  - intros v Hv Hpres.
    pose proof (getpath_weather_first d first rest Hw) as Hpath.
    rewrite Hv in Hpath.
    assert (Hall : Forall (present (VDict d)) caminhos).
    { apply Forall_forall. intros p Hp. pose proof Hp as Hp0.
      unfold caminhos in Hp. simpl in Hp.
      repeat (destruct Hp as [<- | Hp];
              [ first [ exists v; exact Hpath
                      | apply Hpres; [exact Hp0 | discriminate] ] | ]).
      contradiction. }
    destruct (Forall_present_values _ _ Hall) as [vs Hvs].
    assert (Hrec : extrair_info_interesse (VDict d)
                   = Return (VDict (combine colunas vs)))
      by (apply extrair_all_present; [discriminate | exact Hvs]).
    exists (combine colunas vs).
    split; [exact Hrec|]. split; [now rewrite Heq|].
    pose proof (f_equal (fun l => nth 7 l (Raise KeyError)) Hvs) as H8.
    cbn beta in H8. unfold caminhos in H8. cbn [map nth] in H8.
    rewrite Hpath in H8.
    pose proof (map_Return_length _ _ _ Hvs) as Hlen. simpl in Hlen.
    do 10 (destruct vs as [|? vs]; [discriminate Hlen|]).
    destruct vs; [|discriminate Hlen].
    cbn in H8. injection H8 as ->. reflexivity.
Qed.

Lemma descricao_from_first_weather_witness :
  exists rec,
    extrair_info_interesse
      (resposta_exemplo (VList [VDict [("description", VStr "nublado")];
                                VDict [("description", VStr "chuva")]]))
    = Return (VDict rec)
    /\ dict_get "descricao" rec = Some (VStr "nublado").
Proof.
  unfold resposta_exemplo.
  destruct (descricao_from_first_weather
              [ ("name", VStr "Recife");
                ("sys", VDict [("country", VStr "BR")]);
                ("main", VDict [("temp", VFloat 28.5%float);
                                ("feels_like", VFloat 31%float);
                                ("temp_min", VFloat 27%float);
                                ("temp_max", VFloat 30%float);
                                ("humidity", VInt 74)]);
                ("weather", VList [VDict [("description", VStr "nublado")];
                                   VDict [("description", VStr "chuva")]]);
                ("wind", VDict [("speed", VFloat 4.5%float)]);
                ("dt", VInt 1700000000) ]
              [ ("name", VStr "Recife");
                ("sys", VDict [("country", VStr "BR")]);
                ("main", VDict [("temp", VFloat 28.5%float);
                                ("feels_like", VFloat 31%float);
                                ("temp_min", VFloat 27%float);
                                ("temp_max", VFloat 30%float);
                                ("humidity", VInt 74)]);
                ("weather", VList [VDict [("description", VStr "nublado")]]);
                ("wind", VDict [("speed", VFloat 4.5%float)]);
                ("dt", VInt 1700000000) ]
              (VDict [("description", VStr "nublado")])
              [VDict [("description", VStr "chuva")]] [])
    as [_ [_ H]].
  - intros k Hk. simpl.
    repeat match goal with
           | |- context [String.eqb k ?s] =>
               let E := fresh "E" in
               destruct (String.eqb k s) eqn:E;
               [ try reflexivity; apply String.eqb_eq in E; contradiction | ]
           end.
    reflexivity.
  - reflexivity.
  - reflexivity.
  - destruct (H (VStr "nublado") eq_refl) as [rec [E [_ Hd]]].
    + intros p Hp Hne. unfold caminhos in Hp. simpl in Hp.
      repeat (destruct Hp as [<- | Hp];
              [first [now eexists | contradiction] | ]).
      contradiction.
    + exists rec. split; [exact E | exact Hd].
Defined.

(** ** The writer *)

Lemma added_cons (e : event) (l new tr : list event) :
  l = (new ++ tr)%list -> e :: l = ((e :: new) ++ tr)%list.
Proof. intros ->. reflexivity. Qed.

Lemma added_nil (tr : list event) : tr = ([] ++ tr)%list.
Proof. reflexivity. Qed.

Ltac added_events := repeat apply added_cons; apply added_nil.

(** Splits a run of the writer by the two places where it reads [dados]
    and by the calls that fail. *)
Ltac writer_cases dados w :=
  let t := fresh "t" in
  let c := fresh "c" in
  let n := fresh "n" in
  let tr := fresh "tr" in
  destruct w as [t c [[] [] [] [] ? [] [] ?] n tr];
  unfold salvar_dados_no_bd, salvar_dados_no_bd_M;
  destruct dados;
  try match goal with
      | |- context [valores (VDict ?d)] =>
          set (rv := valores (VDict d)) in *;
          set (rc := getitem (VDict d) (SKey "cidade")) in *;
          destruct rv as [?|[]]; [destruct rc as [?|[]]|..]
      end;
  cbn.

(** A record with the ten keys gives the tuple of its values. *)
Lemma fully_populated_valores (dados : value) :
  fully_populated dados ->
  exists vs,
    valores dados = Return vs
    /\ map (fun k => getitem dados (SKey k)) colunas = map Return vs
    /\ getitem dados (SKey "cidade") = Return (hd VNone vs).
Proof.
  intros [d [-> H]].
  unfold colunas in H.
  repeat match goal with
         | H : Forall _ (_ :: _) |- _ => inversion H; subst; clear H
         end.
  unfold valores, colunas. cbn [map getitem].
  repeat match goal with
         | H : dict_get ?k d <> None |- _ =>
             destruct (dict_get k d) eqn:?; [clear H | contradiction]
         end.
  cbn [bind]. eexists. repeat split.
Qed.

Lemma valores_cidade (dados : value) (vs : list value) :
  valores dados = Return vs ->
  getitem dados (SKey "cidade") = Return (hd VNone vs).
Proof.
  unfold valores.
  repeat match goal with
         | |- context [bind (getitem dados ?k) _] =>
             destruct (getitem dados k); cbn [bind]; [|discriminate]
         end.
  intros [= <-]. reflexivity.
Qed.

(** The table after the writer, in every run. *)
Lemma salvar_table (dados : value) (w : world) :
  table (snd (salvar_dados_no_bd dados w)) = table w
  \/ exists vs,
       valores dados = Return vs
       /\ writer_fault (db_faults w) = false
       /\ fst (salvar_dados_no_bd dados w) = Return tt
       /\ table (snd (salvar_dados_no_bd dados w))
          = (table w ++ [mkRow (combine colunas vs) (clock w)])%list.
Proof.
  destruct (valores dados) as [vs|e] eqn:Ev.
  - pose proof (valores_cidade _ _ Ev) as Hc.
    writer_cases dados w; try discriminate; try (injection Ev as ->);
      try (left; reflexivity).
    all: right; eexists; repeat split; reflexivity.
  - left. writer_cases dados w; try discriminate; reflexivity.
Qed.

(** After a failed INSERT that was rolled back the writer returns None,
    as it does after a successful one; after a failed connect there is
    no transaction and no rollback. *)
Example salvar_db_error_returns_normally :
  fst (salvar_dados_no_bd registro_exemplo
         (world0 (mkFaults false false true false false)))
  = Return tt
  /\ fst (salvar_dados_no_bd registro_exemplo (world0 no_faults)) = Return tt
  /\ trace (snd (salvar_dados_no_bd registro_exemplo
                   (world0 (mkFaults true false false false false))))
     = [EPrint MsgErroSalvar; EConnect].
Proof. repeat split. Qed.

(** C1: when a call of the writer fails with an error of the database
    (connect, cursor, execute or commit), the failure is surfaced as a
    logged abort: the writer prints the error message and never the
    success message, asks for a rollback whenever a connection had been
    opened (when connecting itself failed there is no transaction), and
    leaves the table as it was.  It does not retry: it connects once and
    sends the INSERT at most once.  It then returns None, unless the
    rollback fails too, in which case that error of the database leaves
    the writer as an exception. *)
Theorem salvar_db_error_logged (dados : value) (w : world) :
  fully_populated dados ->
  writer_db_error (db_faults w) = true ->
  table (snd (salvar_dados_no_bd dados w)) = table w
  /\ (fst (salvar_dados_no_bd dados w) = Raise DbError
      <-> connect_fails (db_faults w) = false
          /\ rollback_fails (db_faults w) = true)
  /\ (fst (salvar_dados_no_bd dados w) = Return tt
      \/ fst (salvar_dados_no_bd dados w) = Raise DbError)
  /\ exists new,
       added w (snd (salvar_dados_no_bd dados w)) new
       /\ In (EPrint MsgErroSalvar) new
       /\ existsb is_success_message new = false
       /\ (if connect_fails (db_faults w)
           then ~ In ERollback new
           else In ERollback new)
       /\ List.length (filter is_connect new) = 1%nat
       /\ (List.length (filter is_execute new) <= 1)%nat.
Proof.
  intros Hfull Hfault.
  destruct (fully_populated_valores _ Hfull) as [vs [Ev [_ Hc]]].
  writer_cases dados w; try discriminate.
  all: split; [reflexivity|].
  all: split;
    [ split;
      [ intros H; try discriminate H; split; reflexivity
      | intros [H1 H2]; try discriminate H1; try discriminate H2; reflexivity ]
    | ].
  all: split; [first [left; reflexivity | right; reflexivity]|].
  all: eexists; split; [unfold added; cbn; added_events|].
  all: cbn; repeat split; auto; try lia.
  all: intros H; repeat (destruct H as [H|H]; try discriminate); contradiction.
Qed.

Lemma salvar_db_error_logged_witness :
  table (snd (salvar_dados_no_bd registro_exemplo
                (world0 (mkFaults false false false true false))))
  = []
  /\ (fst (salvar_dados_no_bd registro_exemplo
             (world0 (mkFaults false false false true false)))
      = Return tt
      \/ fst (salvar_dados_no_bd registro_exemplo
                (world0 (mkFaults false false false true false)))
         = Raise DbError).
Proof.
  destruct (salvar_db_error_logged registro_exemplo
              (world0 (mkFaults false false false true false)))
    as [H1 [_ [H3 _]]].
  - exists [ ("cidade", VStr "Recife"); ("pais", VStr "BR");
             ("temperatura_c", VFloat 28.5%float);
             ("sensacao_termica_c", VFloat 31%float);
             ("temp_min_c", VFloat 27%float); ("temp_max_c", VFloat 30%float);
             ("umidade_pct", VInt 74); ("descricao", VStr "nublado");
             ("velocidade_vento_ms", VFloat 4.5%float);
             ("timestamp_coleta", VInt 1700000000) ].
    split; [reflexivity|].
    unfold colunas. repeat constructor; discriminate.
  - reflexivity.
  - split; [exact H1 | exact H3].
Defined.

(** A rollback that fails lets the error leave the writer, after the
    message was printed and with the connection closed. *)
Example salvar_rollback_fails :
  salvar_dados_no_bd registro_exemplo
    (mkWorld [] 1000
       (mkFaultsAll false true false false false false true false) 0 [])
  = (Raise DbError,
     mkWorld [] 1000
       (mkFaultsAll false true false false false false true false) 0
       [EClose; ERollback; EPrint MsgErroSalvar; ECursor; EConnect]).
Proof. reflexivity. Qed.

(** C4: for a record with the ten keys, a run of the writer in which no
    call to the database fails adds one row to the table, whose columns
    hold the values of the record under the keys of the same names, in
    the order of the column list; in every other run (a failing call, or
    an exception of any kind) the table is left as it was. *)
Theorem salvar_inserts_one_row (dados : value) (w : world) :
  (fully_populated dados ->
   writer_fault (db_faults w) = false ->
   exists vs,
     map (fun k => getitem dados (SKey k)) colunas = map Return vs
     /\ fst (salvar_dados_no_bd dados w) = Return tt
     /\ table (snd (salvar_dados_no_bd dados w))
        = (table w ++ [mkRow (combine colunas vs) (clock w)])%list)
  /\ (writer_fault (db_faults w) = true ->
      table (snd (salvar_dados_no_bd dados w)) = table w)
  /\ (forall e,
        fst (salvar_dados_no_bd dados w) = Raise e ->
        table (snd (salvar_dados_no_bd dados w)) = table w).
Proof.
  split; [|split].
  - intros Hfull Hok.
    destruct (fully_populated_valores _ Hfull) as [vs [Ev [Hmap Hc]]].
    exists vs. split; [exact Hmap|].
    writer_cases dados w; try discriminate.
    all: injection Ev as ->; split; reflexivity.
  - intros Hfault.
    destruct (salvar_table dados w) as [H | [vs [_ [Hok _]]]];
      [exact H | congruence].
  - intros e He.
    destruct (salvar_table dados w) as [H | [vs [_ [_ [Hret _]]]]];
      [exact H | congruence].
Qed.

Lemma salvar_inserts_one_row_witness :
  table (snd (salvar_dados_no_bd registro_exemplo (world0 no_faults)))
  = [mkRow [ ("cidade", VStr "Recife"); ("pais", VStr "BR");
             ("temperatura_c", VFloat 28.5%float);
             ("sensacao_termica_c", VFloat 31%float);
             ("temp_min_c", VFloat 27%float); ("temp_max_c", VFloat 30%float);
             ("umidade_pct", VInt 74); ("descricao", VStr "nublado");
             ("velocidade_vento_ms", VFloat 4.5%float);
             ("timestamp_coleta", VInt 1700000000) ] 1000].
Proof.
  destruct (proj1 (salvar_inserts_one_row registro_exemplo (world0 no_faults)))
    as [vs [Hmap [_ Ht]]].
  - eexists. split; [reflexivity|].
    unfold colunas. repeat constructor; discriminate.
  - reflexivity.
  - rewrite Ht. cbn in Hmap.
    do 10 (destruct vs as [|? vs]; [discriminate Hmap|]).
    destruct vs; [|discriminate Hmap].
    injection Hmap as <- <- <- <- <- <- <- <- <- <-.
    reflexivity.
Defined.

(** ** The ordering of the results *)

Lemma insert_desc_perm (r : row) (l : list row) :
  Permutation (insert_desc r l) (r :: l).
Proof.
  induction l as [|x l IH]; simpl.
  - apply Permutation_refl.
  - destruct (data_insercao x <=? data_insercao r).
    + apply Permutation_refl.
    + eapply perm_trans; [apply perm_skip, IH | apply perm_swap].
Qed.

Lemma order_by_perm (l : list row) :
  Permutation (order_by_data_insercao_desc l) l.
Proof.
  induction l as [|r l IH]; simpl.
  - apply perm_nil.
  - eapply perm_trans; [apply insert_desc_perm | now apply perm_skip].
Qed.

Lemma insert_desc_sorted (r : row) (l : list row) :
  StronglySorted newest_first l ->
  StronglySorted newest_first (insert_desc r l).
Proof.
  induction 1 as [|x l Hs IH Hx]; simpl.
  - repeat constructor.
  - destruct (data_insercao x <=? data_insercao r) eqn:E.
    + apply Z.leb_le in E.
      constructor; [now constructor|].
      constructor; [exact E|].
      eapply Forall_impl; [|exact Hx].
      unfold newest_first. intros; lia.
    + apply Z.leb_gt in E.
      constructor; [exact IH|].
      eapply Permutation_Forall;
        [apply Permutation_sym, insert_desc_perm|].
      constructor; [unfold newest_first; lia | exact Hx].
Qed.

Lemma order_by_sorted (l : list row) :
  StronglySorted newest_first (order_by_data_insercao_desc l).
Proof.
  induction l as [|r l IH]; simpl.
  - constructor.
  - now apply insert_desc_sorted.
Qed.

Lemma order_by_nil_iff (l : list row) :
  order_by_data_insercao_desc l = [] <-> l = [].
Proof.
  split; [|intros ->; reflexivity].
  intros H. apply Permutation_nil.
  rewrite <- H. apply order_by_perm.
Qed.

(** ** The pattern of the second endpoint *)

(** Whatever the text between them, a pattern that ends in a percent
    sign is accepted: the endpoint's pattern never ends in an escape. *)
Lemma like_tokens_percent_end (c : string) (esc : bool) :
  like_tokens esc (c ++ "%") <> None.
Proof.
  revert esc. induction c as [|a c IH]; intros esc.
  - destruct esc; discriminate.
  - cbn [append like_tokens].
    destruct esc;
      repeat match goal with
             | |- context [Ascii.eqb ?x ?y] => destruct (Ascii.eqb x y)
             end;
      try apply IH;
      specialize (IH false);
      destruct (like_tokens false (c ++ "%")); try discriminate;
      contradiction.
Qed.

Lemma like_tokens_wrapped (cidade : string) :
  exists t, like_tokens false ("%" ++ cidade ++ "%") = Some t.
Proof.
  destruct (like_tokens false ("%" ++ cidade ++ "%")) as [t|] eqn:E.
  - now exists t.
  - exfalso. revert E.
    change ("%" ++ cidade ++ "%")%string with (("%" ++ cidade) ++ "%")%string.
    apply like_tokens_percent_end.
Qed.

Lemma like_tokens_plain (q r : string) :
  plain q = true ->
  like_tokens false (q ++ r) = option_map (app (lits q)) (like_tokens false r).
Proof.
  induction q as [|c q IH]; intros Hp.
  - simpl. destruct (like_tokens false r); reflexivity.
  - simpl in Hp.
    repeat (apply andb_prop in Hp; destruct Hp as [Hp ?]).
    cbn [append like_tokens lits].
    repeat match goal with
           | H : negb (Ascii.eqb ?x ?y) = true |- _ =>
               apply negb_true_iff in H; rewrite H
           end.
    rewrite IH by assumption.
    destruct (like_tokens false r); reflexivity.
Qed.

Lemma like_tokens_plain_wrapped (q : string) :
  plain q = true ->
  like_tokens false ("%" ++ q ++ "%") = Some (TAny :: lits q ++ [TAny])%list.
Proof.
  intros Hp.
  change ("%" ++ q ++ "%")%string with (String "%" (q ++ "%")).
  cbn [like_tokens]. cbn.
  rewrite like_tokens_plain by assumption. reflexivity.
Qed.

(** ** Occurrence of one text in another *)

Lemma prefix_spec (q s : string) :
  String.prefix q s = true <-> exists b, s = (q ++ b)%string.
Proof.
  revert s. induction q as [|c q IH]; intros s.
  - split; [intros _; now exists s | intros _; destruct s; reflexivity].
  - destruct s as [|d s]; simpl.
    + split; [discriminate | intros [b Hb]; discriminate].
    + destruct (ascii_dec c d) as [->|Hne].
      * rewrite IH. split; intros [b Hb]; exists b; congruence.
      * split; [discriminate | intros [b Hb]; congruence].
Qed.

Lemma contains_spec (q s : string) :
  contains q s = true <-> exists a b, s = (a ++ q ++ b)%string.
Proof.
  induction s as [|d s IH].
  - cbn [contains]. rewrite orb_false_r, prefix_spec. split.
    + intros [b Hb]. exists EmptyString, b. exact Hb.
    + intros [a [b H]]. destruct a; [now exists b | discriminate].
  - cbn [contains]. rewrite orb_true_iff, prefix_spec, IH. split.
    + intros [[b Hb] | [a [b H]]].
      * exists EmptyString, b. exact Hb.
      * exists (String d a), b. simpl. now f_equal.
    + intros [[|c a] [b H]].
      * left. now exists b.
      * right. exists a, b. simpl in H. congruence.
Qed.

(** ** Matching *)

Section Matching.

Variable lower : ascii -> ascii.

Lemma like_match_any_nil (s : string) : like_match lower [TAny] s = true.
Proof. induction s as [|c s IH]; [reflexivity | exact IH]. Qed.

Lemma like_match_any (p : list tok) (s : string) :
  like_match lower (TAny :: p) s
  = like_match lower p s
    || match s with
       | EmptyString => false
       | String _ s' => like_match lower (TAny :: p) s'
       end.
Proof. destruct s; reflexivity. Qed.

Lemma like_match_lits_prefix (q s : string) :
  like_match lower (lits q ++ [TAny]) s
  = String.prefix (smap lower q) (smap lower s).
Proof.
  revert s. induction q as [|c q IH]; intros s.
  - cbn [lits app]. rewrite like_match_any_nil. destruct s; reflexivity.
  - destruct s as [|d s]; [reflexivity|].
    cbn [lits app like_match smap String.prefix].
    rewrite IH.
    destruct (ascii_dec (lower c) (lower d)) as [E|E].
    + rewrite E, Ascii.eqb_refl. reflexivity.
    + apply Ascii.eqb_neq in E. rewrite E. reflexivity.
Qed.

Lemma like_match_contains (q s : string) :
  like_match lower (TAny :: lits q ++ [TAny]) s
  = contains (smap lower q) (smap lower s).
Proof.
  induction s as [|d s IH];
    rewrite like_match_any, like_match_lits_prefix; cbn [smap contains].
  - reflexivity.
  - rewrite IH. reflexivity.
Qed.

(** Without special characters in the query, the endpoint's pattern
    selects the texts in which the query occurs, letters compared
    without regard to case. *)
Lemma ilike_plain (q s : string) :
  plain q = true ->
  ilike lower s ("%" ++ q ++ "%")
  = Some (contains (smap lower q) (smap lower s)).
Proof.
  intros Hp. unfold ilike.
  rewrite like_tokens_plain_wrapped by assumption.
  cbn [option_map]. now rewrite like_match_contains.
Qed.

Lemma where_cidade_plain (q s : string) (r : row) :
  plain q = true ->
  dict_get "cidade" (fields r) = Some (VStr s) ->
  where_cidade_ilike lower ("%" ++ q ++ "%") r = true
  <-> exists a b, smap lower s = (a ++ smap lower q ++ b)%string.
Proof.
  intros Hp Hc. unfold where_cidade_ilike.
  rewrite Hc, ilike_plain by assumption.
  apply contains_spec.
Qed.

(** ** The two endpoints *)

Lemma respond_read_error (f : faults) :
  respond (Raise (read_error f)) = mkResponse 500 None.
Proof.
  unfold read_error.
  destruct (connect_fails f || cursor_fails f), (execute_refused f); reflexivity.
Qed.

Lemma get_clima_todos_outcome (w : world) :
  fst (get_clima_todos w)
  = if read_fault (db_faults w) then Raise (read_error (db_faults w))
    else Return (order_by_data_insercao_desc (table w)).
Proof.
  destruct w as [t c [[] [] [] ? [] [] ? ?] n tr]; reflexivity.
Qed.

Lemma get_clima_por_cidade_outcome (cidade : string) (w : world) :
  fst (get_clima_por_cidade lower cidade w)
  = if read_fault (db_faults w) then Raise (read_error (db_faults w))
    else
      match order_by_data_insercao_desc
              (filter (where_cidade_ilike lower ("%" ++ cidade ++ "%"))
                      (table w)) with
      | [] => Raise (HTTPException 404)
      | registros => Return registros
      end.
Proof.
  destruct (like_tokens_wrapped cidade) as [tk E].
  unfold get_clima_por_cidade, get_clima_por_cidade_M, execute_select_cidade.
  rewrite E.
  destruct w as [t c [[] [] [] ? [] [] ? ?] n tr]; try reflexivity.
  all: cbv -[order_by_data_insercao_desc where_cidade_ilike filter append];
    match goal with
    | |- context [order_by_data_insercao_desc ?l] =>
        destruct (order_by_data_insercao_desc l)
    end; reflexivity.
Qed.

End Matching.

Example florian_matches_Florianopolis :
  respond (fst (get_clima_por_cidade ascii_lower "florian"
                  (world_exemplo no_faults)))
  = mkResponse 200 (Some [linha Florianopolis 7]).
Proof. reflexivity. Qed.

(** C5: when the database answers, GET /clima returns status 200 with
    all the rows of the table, each once, newest first; with an empty
    table the body is the empty list. *)
Theorem get_clima_todos_returns_all (w : world) :
  read_fault (db_faults w) = false ->
  exists registros,
    respond (fst (get_clima_todos w)) = mkResponse 200 (Some registros)
    /\ Permutation registros (table w)
    /\ List.length registros = List.length (table w)
    /\ StronglySorted newest_first registros
    /\ (table w = [] -> registros = []).
Proof.
  intros Hok.
  exists (order_by_data_insercao_desc (table w)).
  rewrite get_clima_todos_outcome, Hok.
  split; [reflexivity|].
  split; [apply order_by_perm|].
  split; [apply Permutation_length, order_by_perm|].
  split; [apply order_by_sorted|].
  intros ->. reflexivity.
Qed.

Lemma get_clima_todos_returns_all_witness :
  respond (fst (get_clima_todos (world0 no_faults))) = mkResponse 200 (Some [])
  /\ exists registros,
       respond (fst (get_clima_todos (world_exemplo no_faults)))
       = mkResponse 200 (Some registros)
       /\ List.length registros = 4%nat.
Proof.
  split.
  - destruct (get_clima_todos_returns_all (world0 no_faults) eq_refl)
      as [registros [H [_ [_ [_ Hnil]]]]].
    rewrite H, (Hnil eq_refl). reflexivity.
  - destruct (get_clima_todos_returns_all (world_exemplo no_faults) eq_refl)
      as [registros [H [_ [Hlen _]]]].
    exists registros. split; [exact H | exact Hlen].
Defined.

Lemma filter_nil_iff {A} (f : A -> bool) (l : list A) :
  filter f l = [] <-> forall x, In x l -> f x = false.
Proof.
  induction l as [|a l IH]; simpl.
  - split; [intros _ x [] | reflexivity].
  - destruct (f a) eqn:E; split.
    + discriminate.
    + intros H. specialize (H a (or_introl eq_refl)). congruence.
    + intros H x [<- | Hx]; [exact E | now apply IH].
    + intros H. apply IH. intros x Hx. apply H. now right.
Qed.

Lemma where_cidade_not_text (lower : ascii -> ascii) (p : string) (r : row) :
  cidade_of r = None -> where_cidade_ilike lower p r = false.
Proof.
  unfold cidade_of, where_cidade_ilike.
  destruct (dict_get "cidade" (fields r)) as [[]|]; try reflexivity.
  discriminate.
Qed.

Lemma cidade_of_Some (r : row) (s : string) :
  cidade_of r = Some s -> dict_get "cidade" (fields r) = Some (VStr s).
Proof.
  unfold cidade_of.
  destruct (dict_get "cidade" (fields r)) as [[]|]; try discriminate.
  now intros [= ->].
Qed.

(** For a query without special characters, no row is selected exactly
    when no city of the table contains the query, letters compared
    without regard to case. *)
Lemma no_row_selected_plain (lower : ascii -> ascii) (cidade : string) (l : list row) :
  plain cidade = true ->
  filter (where_cidade_ilike lower ("%" ++ cidade ++ "%")) l = []
  <-> forall r s,
        In r l -> cidade_of r = Some s ->
        ~ exists a b, smap lower s = (a ++ smap lower cidade ++ b)%string.
Proof.
  intros Hp. rewrite filter_nil_iff. split.
  - intros H r s Hin Hc Hex.
    apply (where_cidade_plain lower cidade s r Hp (cidade_of_Some _ _ Hc)) in Hex.
    rewrite (H r Hin) in Hex. discriminate.
  - intros H r Hin.
    destruct (cidade_of r) as [s|] eqn:Hc;
      [|now apply where_cidade_not_text].
    destruct (where_cidade_ilike lower ("%" ++ cidade ++ "%") r) eqn:E;
      [|reflexivity].
    exfalso. apply (H r s Hin Hc).
    now apply (where_cidade_plain lower cidade s r Hp (cidade_of_Some _ _ Hc)).
Qed.

(** C6 (as stated, refuted): no city of the table contains the text
    [r_c], in any case of the letters, and yet the query [r_c] is
    answered with status 200, not 404. *)
Lemma get_clima_por_cidade_200_without_substring :
  status (respond (fst (get_clima_por_cidade ascii_lower "r_c"
                          (mkWorld [linha "Recife" 5] 1000 no_faults 0 []))))
  = 200
  /\ forall r s,
       In r [linha "Recife" 5] -> cidade_of r = Some s ->
       ~ exists a b,
           smap ascii_lower s = (a ++ smap ascii_lower "r_c" ++ b)%string.
Proof.
  split; [reflexivity|].
  intros r s [<- | []] [= <-] H.
  apply contains_spec in H. discriminate H.
Qed.

(** C6 (amended): for a query without a NUL character, the status of
    GET /clima/{cidade} is 500 exactly when a call to the database
    fails, 404 exactly when none fails and no row matches the pattern
    [%cidade%] of ILIKE, and 200 otherwise: neither of the two errors is
    turned into the other.  For a query that has none of the characters
    percent, underscore and backslash either, no row matches exactly
    when no city of the table contains the query, letters compared
    without regard to case. *)
Theorem get_clima_por_cidade_status
    (lower : ascii -> ascii) (cidade : string) (w : world) :
  has_nul cidade = false ->
  status (respond (fst (get_clima_por_cidade lower cidade w)))
  = (if read_fault (db_faults w) then 500
     else match filter (where_cidade_ilike lower ("%" ++ cidade ++ "%"))
                       (table w) with
          | [] => 404
          | _ => 200
          end)
  /\ (plain cidade = true ->
      read_fault (db_faults w) = false ->
      (status (respond (fst (get_clima_por_cidade lower cidade w))) = 404
       <-> forall r s,
             In r (table w) -> cidade_of r = Some s ->
             ~ exists a b, smap lower s = (a ++ smap lower cidade ++ b)%string)).
Proof.
  intros _.
  assert (Hst : status (respond (fst (get_clima_por_cidade lower cidade w)))
                = (if read_fault (db_faults w) then 500
                   else match filter (where_cidade_ilike lower ("%" ++ cidade ++ "%"))
                                     (table w) with
                        | [] => 404
                        | _ => 200
                        end)).
  { rewrite get_clima_por_cidade_outcome.
    destruct (read_fault (db_faults w));
      [now rewrite respond_read_error|].
    destruct (filter _ (table w)) as [|r l] eqn:E; [reflexivity|].
    destruct (order_by_data_insercao_desc (r :: l)) eqn:E'; [|reflexivity].
    apply (proj1 (order_by_nil_iff _)) in E'. discriminate E'. }
  split; [exact Hst|].
  intros Hp Hok. rewrite Hst, Hok.
  rewrite <- (no_row_selected_plain lower cidade (table w) Hp).
  destruct (filter _ (table w)); split; try reflexivity; discriminate.
Qed.

Lemma get_clima_por_cidade_status_witness :
  status (respond (fst (get_clima_por_cidade ascii_lower "xx"
                          (world_exemplo no_faults))))
  = 404.
Proof.
  apply (proj1 (get_clima_por_cidade_status ascii_lower "xx"
                  (world_exemplo no_faults) eq_refl)).
Defined.

Example outage_is_500 :
  respond (fst (get_clima_por_cidade ascii_lower "recife"
                  (world_exemplo (mkFaults true false false false false))))
  = mkResponse 500 None
  /\ respond (fst (get_clima_todos
                     (world_exemplo (mkFaults false false true false false))))
     = mkResponse 500 None.
Proof. split; reflexivity. Qed.

(** C3 (as stated, refuted): the query [r_c] is answered with the row of
    Recife, a city whose name does not contain the text [r_c], in any
    case of the letters. *)
Lemma get_clima_por_cidade_wildcard :
  fst (get_clima_por_cidade ascii_lower "r_c"
         (mkWorld [linha "Recife" 5] 1000 no_faults 0 []))
  = Return [linha "Recife" 5]
  /\ ~ exists a b,
         smap ascii_lower "Recife" = (a ++ smap ascii_lower "r_c" ++ b)%string.
Proof.
  split; [reflexivity|].
  intros H. apply contains_spec in H. discriminate H.
Qed.

(** C3 (amended): when the database answers and some row matches, GET
    /clima/{cidade} returns the rows whose city matches the pattern
    [%cidade%] of ILIKE, each once, newest first; in the query a percent
    sign and an underscore are wildcards and a backslash is an escape.
    For a query without these three characters, the rows that match are
    those whose city contains the query, letters compared without regard
    to case. *)
Theorem get_clima_por_cidade_returns_matches
    (lower : ascii -> ascii) (cidade : string) (w : world) :
  read_fault (db_faults w) = false ->
  filter (where_cidade_ilike lower ("%" ++ cidade ++ "%")) (table w) <> [] ->
  (exists registros,
     fst (get_clima_por_cidade lower cidade w) = Return registros
     /\ Permutation registros
          (filter (where_cidade_ilike lower ("%" ++ cidade ++ "%")) (table w))
     /\ (forall r, In r registros <->
                   In r (table w)
                   /\ where_cidade_ilike lower ("%" ++ cidade ++ "%") r = true)
     /\ StronglySorted newest_first registros)
  /\ (plain cidade = true ->
      forall r s,
        dict_get "cidade" (fields r) = Some (VStr s) ->
        (where_cidade_ilike lower ("%" ++ cidade ++ "%") r = true
         <-> exists a b, smap lower s = (a ++ smap lower cidade ++ b)%string)).
Proof.
  intros Hok Hne.
  split.
  - exists (order_by_data_insercao_desc
              (filter (where_cidade_ilike lower ("%" ++ cidade ++ "%")) (table w))).
    rewrite get_clima_por_cidade_outcome, Hok.
    split.
    + destruct (order_by_data_insercao_desc _) eqn:E; [|reflexivity].
      apply (proj1 (order_by_nil_iff _)) in E. contradiction.
    + split; [apply order_by_perm|].
      split; [|apply order_by_sorted].
      intros r. rewrite <- filter_In.
      split; apply Permutation_in;
        [apply order_by_perm | apply Permutation_sym, order_by_perm].
  - intros Hp r s Hc. now apply where_cidade_plain.
Qed.

Lemma get_clima_por_cidade_returns_matches_witness :
  exists registros,
    fst (get_clima_por_cidade ascii_lower "REC" (world_exemplo no_faults))
    = Return registros
    /\ (In (linha "recife" 9) registros /\ In (linha "Recife" 5) registros).
Proof.
  destruct (get_clima_por_cidade_returns_matches
              ascii_lower "REC" (world_exemplo no_faults))
    as [[registros [H [_ [Hin _]]]] _].
  - reflexivity.
  - discriminate.
  - exists registros. split; [exact H|].
    split; apply Hin; (split; [simpl; tauto | reflexivity]).
Defined.

(** ** Connections *)

Lemma salvar_closes (dados : value) (w : world) :
  open_conns (snd (salvar_dados_no_bd dados w)) = open_conns w.
Proof. writer_cases dados w; reflexivity. Qed.

Lemma get_clima_todos_closes (w : world) :
  open_conns (snd (get_clima_todos w)) = open_conns w.
Proof. destruct w as [t c [[] [] [] ? [] [] ? ?] n tr]; reflexivity. Qed.

Lemma get_clima_por_cidade_closes
    (lower : ascii -> ascii) (cidade : string) (w : world) :
  open_conns (snd (get_clima_por_cidade lower cidade w)) = open_conns w.
Proof.
  destruct (like_tokens_wrapped cidade) as [tk E].
  unfold get_clima_por_cidade, get_clima_por_cidade_M, execute_select_cidade.
  rewrite E.
  destruct w as [t c [[] [] [] ? [] [] ? ?] n tr]; try reflexivity.
  all: cbv -[order_by_data_insercao_desc where_cidade_ilike filter append];
    match goal with
    | |- context [order_by_data_insercao_desc ?l] =>
        destruct (order_by_data_insercao_desc l)
    end; reflexivity.
Qed.

(** C9: the writer and the two endpoints leave as many connections open
    as they found, whatever they were given, whichever calls to the
    database fail and whatever the table holds: a connection that was
    opened is closed on every way out. *)
Theorem connections_closed_on_every_path
    (lower : ascii -> ascii) (dados : value) (cidade : string) (w : world) :
  open_conns (snd (salvar_dados_no_bd dados w)) = open_conns w
  /\ open_conns (snd (get_clima_todos w)) = open_conns w
  /\ open_conns (snd (get_clima_por_cidade lower cidade w)) = open_conns w.
Proof.
  split; [apply salvar_closes|].
  split; [apply get_clima_todos_closes | apply get_clima_por_cidade_closes].
Qed.

(** The connection is really opened in between: a run of the writer that
    gets to connect records the closing of what it opened. *)
Example salvar_opens_then_closes :
  trace (snd (salvar_dados_no_bd registro_exemplo
                (world0 (mkFaults false true false false false))))
  = [EClose; ERollback; EPrint MsgErroSalvar; ECursor; EConnect].
Proof. reflexivity. Qed.

(** * Further properties of the code *)

(** ** The extractor, on every input *)

Lemma getitem_raises (v : value) (s : subscript) (e : exn) :
  getitem v s = Raise e ->
  e = KeyError \/ e = IndexError \/ e = TypeError.
Proof.
  destruct v, s; simpl;
    repeat match goal with
           | |- context [match ?x with _ => _ end] => destruct x
           end;
    intros [= <-]; auto.
Qed.

Lemma getpath_raises (p : list subscript) (v : value) (e : exn) :
  getpath v p = Raise e ->
  e = KeyError \/ e = IndexError \/ e = TypeError.
Proof.
  revert v. induction p as [|s p IH]; intros v; simpl.
  - discriminate.
  - destruct (getitem v s) as [x|e0] eqn:E; cbn [bind].
    + apply IH.
    + intros [= <-]. now apply getitem_raises in E.
Qed.

Lemma info_extraida_raises (raw : value) (e : exn) :
  info_extraida raw = Raise e ->
  e = KeyError \/ e = IndexError \/ e = TypeError.
Proof.
  unfold info_extraida.
  repeat match goal with
         | |- context [bind (getpath ?a ?b) _] =>
             let E := fresh "E" in
             destruct (getpath a b) eqn:E; cbn [bind];
             [ | intros [= <-]; now apply getpath_raises in E ]
         end.
  discriminate.
Qed.

Lemma extrair_raises_only_aux (raw : value) (e : exn) :
  extrair_info_interesse raw = Raise e ->
  e = IndexError \/ e = TypeError.
Proof.
  unfold extrair_info_interesse.
  destruct (info_extraida raw) as [v|e0] eqn:E.
  - destruct raw; discriminate.
  - apply info_extraida_raises in E.
    destruct E as [-> | [-> | ->]]; destruct raw; intros [= <-]; auto.
Qed.

(** X1: the only exceptions that leave the extractor are IndexError and
    TypeError; a KeyError never does, and for None the extractor returns
    None. *)
Theorem extrair_raises_only (raw : value) (e : exn) :
  extrair_info_interesse raw = Raise e ->
  (e = IndexError \/ e = TypeError) /\ raw <> VNone.
Proof.
  intros H. split; [now apply extrair_raises_only_aux with (raw := raw)|].
  intros ->. discriminate H.
Qed.

Lemma extrair_raises_only_witness :
  IndexError = IndexError \/ IndexError = TypeError.
Proof.
  apply (proj1 (extrair_raises_only (resposta_exemplo (VList [])) IndexError eq_refl)).
Defined.

(** X2: the outcome is decided by the first field, in the order of the
    dict display, that cannot be read: a missing key there gives None
    and any other failure leaves the function, whatever the fields
    after it look like. *)
Theorem extrair_first_failure
    (raw : value) (pre post : list (list subscript)) (p : list subscript) (e : exn) :
  raw <> VNone ->
  caminhos = (pre ++ p :: post)%list ->
  Forall (present raw) pre ->
  getpath raw p = Raise e ->
  extrair_info_interesse raw
  = match e with
    | KeyError => Return VNone
    | _ => Raise e
    end.
Proof.
  intros Hn Hc Hpre He.
  unfold caminhos in Hc.
  do 10 (destruct pre as [|? pre];
         [ cbn [app] in Hc; injection Hc as <- _;
           repeat match goal with
                  | H : Forall _ (_ :: _) |- _ => inversion H; subst; clear H
                  end;
           repeat match goal with
                  | H : present _ _ |- _ => destruct H as [? H]
                  end;
           unfold extrair_info_interesse, info_extraida;
           repeat match goal with
                  | H : getpath _ _ = _ |- _ => rewrite H; clear H; cbn [bind]
                  end;
           destruct raw; try contradiction; destruct e; reflexivity
         | cbn [app] in Hc; injection Hc as <- Hc ]).
  destruct pre; discriminate.
Qed.

Lemma extrair_first_failure_witness :
  extrair_info_interesse
    (VDict [("name", VStr "Recife"); ("sys", VDict []); ("weather", VList [])])
  = Return VNone.
Proof.
  apply (extrair_first_failure
           (VDict [("name", VStr "Recife"); ("sys", VDict []); ("weather", VList [])])
           [[SKey "name"]]
           (skipn 2 caminhos)
           [SKey "sys"; SKey "country"] KeyError).
  - discriminate.
  - reflexivity.
  - repeat constructor. eexists; reflexivity.
  - reflexivity.
Defined.

(** X3: the extractor reads a response object through six of its keys
    only: two objects that agree on them are extracted to the same
    result, whatever else they hold. *)
Theorem extrair_reads_six_keys (d d' : list (string * value)) :
  (forall k, In k chaves_lidas -> dict_get k d = dict_get k d') ->
  extrair_info_interesse (VDict d) = extrair_info_interesse (VDict d').
Proof.
  intros H. apply info_extraida_ext. intros p Hp.
  unfold caminhos in Hp. simpl in Hp.
  repeat (destruct Hp as [<- | Hp];
          [ rewrite !getpath_dict_key;
            rewrite H by (unfold chaves_lidas; simpl; tauto);
            reflexivity | ]).
  contradiction.
Qed.

Lemma extrair_reads_six_keys_witness :
  extrair_info_interesse
    (VDict [("cod", VInt 200); ("name", VStr "Recife"); ("dt", VInt 5)])
  = extrair_info_interesse
      (VDict [("name", VStr "Recife"); ("dt", VInt 5); ("base", VStr "stations")]).
Proof.
  apply extrair_reads_six_keys.
  intros k Hk. unfold chaves_lidas in Hk. simpl in Hk.
  repeat (destruct Hk as [<- | Hk]; [reflexivity|]).
  contradiction.
Defined.

(** X4: extraction is all or nothing: the extractor returns a dict
    exactly when each of the ten fields can be read, and the dict it
    returns has the ten keys of the INSERT, in the order of its columns. *)
Theorem extrair_record_iff (raw : value) :
  ((exists d, extrair_info_interesse raw = Return (VDict d))
   <-> Forall (present raw) caminhos)
  /\ (forall d,
        extrair_info_interesse raw = Return (VDict d) -> map fst d = colunas).
Proof.
  split; [split|].
  - intros [d H].
    now destruct (extrair_record_fields _ _ H) as [_ [_ Hall]].
  - intros Hall.
    destruct (Forall_present_values _ _ Hall) as [vs Hvs].
    exists (combine colunas vs).
    apply extrair_all_present; [|exact Hvs].
    intros ->. inversion Hall as [|? ? [v Hv] _]. discriminate Hv.
  - intros d H.
    destruct (extrair_Return_inv _ _ H) as [Hd | [vs [Hvs Hd]]];
      [discriminate|].
    injection Hd as ->.
    pose proof (map_Return_length _ _ _ Hvs) as Hlen. simpl in Hlen.
    do 10 (destruct vs as [|? vs]; [discriminate|]).
    destruct vs; [reflexivity | discriminate].
Qed.

(** ** The writer, on every input *)

Lemma getitem_key_raises (v : value) (k : string) (e : exn) :
  getitem v (SKey k) = Raise e -> e = KeyError \/ e = TypeError.
Proof.
  destruct v; simpl; try (intros [= <-]; auto).
  destruct (dict_get k d); intros [= <-]; auto.
Qed.

Lemma valores_raises (dados : value) (e : exn) :
  valores dados = Raise e -> e = KeyError \/ e = TypeError.
Proof.
  unfold valores.
  repeat match goal with
         | |- context [bind (getitem dados ?k) _] =>
             let E := fresh "E" in
             destruct (getitem dados k) eqn:E; cbn [bind];
             [ | intros [= <-]; now apply getitem_key_raises in E ]
         end.
  discriminate.
Qed.

Lemma valores_missing (d : list (string * value)) (k : string) :
  In k colunas -> dict_get k d = None -> valores (VDict d) = Raise KeyError.
Proof.
  intros Hin Hk. unfold colunas in Hin. simpl in Hin.
  unfold valores. cbn [getitem].
  repeat (destruct Hin as [<- | Hin];
          [ repeat match goal with
                   | |- context [bind (match dict_get ?k d with _ => _ end) _] =>
                       destruct (dict_get k d) eqn:?; cbn [bind];
                       try reflexivity
                   end; congruence | ]).
  contradiction.
Qed.

Lemma salvar_keeps_clock_and_faults (dados : value) (w : world) :
  clock (snd (salvar_dados_no_bd dados w)) = clock w
  /\ db_faults (snd (salvar_dados_no_bd dados w)) = db_faults w.
Proof. writer_cases dados w; split; reflexivity. Qed.

(** A record with the ten keys is saved when no call fails. *)
Lemma salvar_ok (dados : value) (vs : list value) (w : world) :
  valores dados = Return vs ->
  writer_fault (db_faults w) = false ->
  fst (salvar_dados_no_bd dados w) = Return tt
  /\ table (snd (salvar_dados_no_bd dados w))
     = (table w ++ [mkRow (combine colunas vs) (clock w)])%list.
Proof.
  intros Ev Hok.
  pose proof (valores_cidade _ _ Ev) as Hc.
  writer_cases dados w; try discriminate.
  all: injection Ev as ->; split; reflexivity.
Qed.

Lemma writer_raises (dados : value) (w : world) (e : exn) :
  fst (salvar_dados_no_bd dados w) = Raise e ->
  table (snd (salvar_dados_no_bd dados w)) = table w
  /\ connect_fails (db_faults w) = false
  /\ (((e = KeyError \/ e = TypeError)
       /\ valores dados = Raise e
       /\ cursor_fails (db_faults w) = false)
      \/ (e = ValueErr
          /\ execute_refused (db_faults w) = true
          /\ exists vs, valores dados = Return vs)
      \/ (e = DbError
          /\ rollback_fails (db_faults w) = true
          /\ writer_db_error (db_faults w) = true)).
Proof.
  pose proof (valores_raises dados) as Hv.
  pose proof (valores_cidade dados) as Hc.
  writer_cases dados w; intros H; try discriminate H.
  all: injection H as <-.
  all: try (specialize (Hc _ eq_refl); discriminate Hc).
  all: try (destruct (Hv _ eq_refl) as [K|K]; discriminate K).
  all: split; [reflexivity|]; split; [reflexivity|].
  all: first
         [ left; repeat split; auto; fail
         | right; left; repeat split; eauto; fail
         | right; right; repeat split; auto; fail ].
Qed.

(** X5: an error of the database raised by connect, cursor, execute or
    commit never leaves the writer.  When the writer raises, it is the
    KeyError or TypeError of reading [dados], or the ValueError with
    which the driver refuses a parameter of the INSERT, or the error of
    a rollback that failed; in each case the table is left as it was. *)
Theorem salvar_raises_only (dados : value) (w : world) (e : exn) :
  fst (salvar_dados_no_bd dados w) = Raise e ->
  table (snd (salvar_dados_no_bd dados w)) = table w
  /\ connect_fails (db_faults w) = false
  /\ (((e = KeyError \/ e = TypeError)
       /\ valores dados = Raise e
       /\ cursor_fails (db_faults w) = false)
      \/ (e = ValueErr
          /\ execute_refused (db_faults w) = true
          /\ exists vs, valores dados = Return vs)
      \/ (e = DbError
          /\ rollback_fails (db_faults w) = true
          /\ writer_db_error (db_faults w) = true)).
Proof. apply writer_raises. Qed.

Lemma salvar_raises_only_witness :
  table (snd (salvar_dados_no_bd (VDict [("cidade", VStr "Recife")])
                (world_exemplo no_faults)))
  = table (world_exemplo no_faults).
Proof.
  apply (salvar_raises_only (VDict [("cidade", VStr "Recife")])
                            (world_exemplo no_faults) KeyError).
  reflexivity.
Defined.

(** X6: given a dict that lacks one of the ten keys, and a database that
    lets it connect and open a cursor, the writer raises KeyError
    without having sent the INSERT; it issues no rollback and closes the
    cursor and the connection. *)
Theorem salvar_missing_key (d : list (string * value)) (k : string) (w : world) :
  In k colunas ->
  dict_get k d = None ->
  connect_fails (db_faults w) = false ->
  cursor_fails (db_faults w) = false ->
  fst (salvar_dados_no_bd (VDict d) w) = Raise KeyError
  /\ table (snd (salvar_dados_no_bd (VDict d) w)) = table w
  /\ trace (snd (salvar_dados_no_bd (VDict d) w))
     = EClose :: ECursorClose :: ECursor :: EConnect :: trace w.
Proof.
  intros Hin Hk Hc1 Hc2.
  pose proof (valores_missing d k Hin Hk) as Hv.
  remember (VDict d) as dados eqn:Hd.
  writer_cases dados w; try discriminate.
  all: repeat split.
Qed.

Lemma salvar_missing_key_witness :
  fst (salvar_dados_no_bd (VDict [("cidade", VStr "Recife")]) (world0 no_faults))
  = Raise KeyError.
Proof.
  apply (salvar_missing_key [("cidade", VStr "Recife")] "pais" (world0 no_faults)).
  - simpl. tauto.
  - reflexivity.
  - reflexivity.
  - reflexivity.
Defined.

(** The events of a run, recovered from the trace after it. *)
Ltac events_of Ha tr new :=
  let K := fresh "K" in
  eassert (K : new = _)
    by (apply (app_inv_tail tr); rewrite <- Ha; added_events);
  subst new.

(** X8: the writer asks for a commit only after the INSERT was sent and
    did not fail, and for a rollback only after a call failed; after a
    run in which no call fails there is a commit and no rollback. *)
Theorem salvar_commit_rollback
    (dados : value) (w : world) (new : list event) :
  added w (snd (salvar_dados_no_bd dados w)) new ->
  (In ECommit new ->
   execute_fails (db_faults w) = false
   /\ exists vs, valores dados = Return vs /\ In (EExecute insert_sql vs) new)
  /\ (In ERollback new -> writer_fault (db_faults w) = true)
  /\ (writer_fault (db_faults w) = false ->
      fully_populated dados ->
      In ECommit new /\ ~ In ERollback new).
Proof.
  intros Ha.
  assert (Hp : fully_populated dados -> exists vs,
               valores dados = Return vs
               /\ getitem dados (SKey "cidade") = Return (hd VNone vs)).
  { intros Hf. destruct (fully_populated_valores _ Hf) as [vs [E [_ Hc]]].
    now exists vs. }
  pose proof (valores_cidade dados) as Hc.
  pose proof (valores_raises dados) as Hv.
  unfold added in Ha. revert Ha.
  writer_cases dados w; intros Ha; events_of Ha tr new.
  all: try (specialize (Hc _ eq_refl); discriminate Hc).
  all: try (destruct (Hv _ eq_refl) as [K|K]; discriminate K).
  all:
    split;
    [ intros H; simpl in H;
      repeat (destruct H as [H|H]; [try discriminate H|]);
      try contradiction;
      (split; [reflexivity | eexists; split; [reflexivity | simpl; tauto]])
    | split;
      [ intros H; simpl in H;
        repeat (destruct H as [H|H]; [try discriminate H|]);
        try contradiction; reflexivity
      | intros K Hf; try discriminate K;
        first
          [ destruct Hf as [d' [Hd' _]]; discriminate Hd'
          | destruct (Hp Hf) as [vs [E1 E2]];
            first
              [ discriminate E1
              | discriminate E2
              | split;
                [ simpl; tauto
                | intros H; simpl in H;
                  repeat (destruct H as [H|H]; [discriminate H|]);
                  contradiction ] ] ] ] ].
Qed.

Lemma salvar_commit_rollback_witness :
  In ECommit [EClose; ECursorClose; EPrint (MsgSalvo (VStr "Recife")); ECommit;
              EExecute insert_sql
                [ VStr "Recife"; VStr "BR"; VFloat 28.5%float; VFloat 31%float;
                  VFloat 27%float; VFloat 30%float; VInt 74; VStr "nublado";
                  VFloat 4.5%float; VInt 1700000000 ];
              ECursor; EConnect].
Proof.
  refine (proj1 (proj2 (proj2
            (salvar_commit_rollback registro_exemplo (world0 no_faults) _ _))
            eq_refl _)).
  - reflexivity.
  - eexists. split; [reflexivity|].
    unfold colunas. repeat constructor; discriminate.
Defined.

(** X9: the writer only ever appends: after any number of runs, on any
    inputs and whichever calls fail, the rows that were in the table are
    still there, in the same order, followed by at most one new row per
    run. *)
Theorem salvar_todos_appends (ds : list value) (w : world) :
  exists novas,
    table (salvar_todos ds w) = (table w ++ novas)%list
    /\ (List.length novas <= List.length ds)%nat.
Proof.
  revert w. induction ds as [|dados ds IH]; intros w.
  - exists []. split; [now rewrite app_nil_r | auto].
  - cbn [salvar_todos fold_left].
    destruct (IH (snd (salvar_dados_no_bd dados w))) as [novas [Ht Hl]].
    unfold salvar_todos in Ht. rewrite Ht.
    destruct (salvar_table dados w) as [E | [vs [_ [_ [_ E]]]]]; rewrite E.
    + exists novas. split; [reflexivity | simpl; lia].
    + exists (mkRow (combine colunas vs) (clock w) :: novas).
      split; [now rewrite <- app_assoc | simpl; lia].
Qed.

Lemma salvar_todos_rows (ds : list value) (w : world) :
  writer_fault (db_faults w) = false ->
  Forall fully_populated ds ->
  exists vss,
    map valores ds = map Return vss
    /\ table (salvar_todos ds w)
       = (table w ++ map (fun vs => mkRow (combine colunas vs) (clock w)) vss)%list.
Proof.
  intros Hok Hall. revert w Hok.
  induction Hall as [|dados ds Hd _ IH]; intros w Hok.
  - exists []. split; [reflexivity | now rewrite app_nil_r].
  - destruct (fully_populated_valores _ Hd) as [vs [Ev _]].
    destruct (salvar_ok _ _ w Ev Hok) as [_ Ht].
    destruct (salvar_keeps_clock_and_faults dados w) as [Hclock Hfaults].
    destruct (IH (snd (salvar_dados_no_bd dados w))) as [vss [Hm Ht']].
    { now rewrite Hfaults. }
    exists (vs :: vss). split.
    + simpl. now rewrite Ev, Hm.
    + cbn [salvar_todos fold_left]. unfold salvar_todos in Ht'.
      rewrite Ht', Ht, Hclock, <- app_assoc. reflexivity.
Qed.

(** X10: when no call fails, the runs of the writer on a list of records
    with the ten keys add one row per record, in the order of the list,
    each holding the values of its record under the columns of the
    INSERT. *)
Theorem salvar_todos_stores_each (ds : list value) (w : world) :
  writer_fault (db_faults w) = false ->
  Forall fully_populated ds ->
  exists vss novas,
    map valores ds = map Return vss
    /\ table (salvar_todos ds w) = (table w ++ novas)%list
    /\ map fields novas = map (combine colunas) vss.
Proof.
  intros Hok Hall.
  destruct (salvar_todos_rows ds w Hok Hall) as [vss [Hm Ht]].
  exists vss, (map (fun vs => mkRow (combine colunas vs) (clock w)) vss).
  split; [exact Hm|]. split; [exact Ht|].
  rewrite map_map. reflexivity.
Qed.

Lemma salvar_todos_stores_each_witness :
  List.length (table (salvar_todos [registro_exemplo; registro_exemplo]
                                   (world0 no_faults))) = 2%nat.
Proof.
  destruct (salvar_todos_stores_each [registro_exemplo; registro_exemplo]
                                     (world0 no_faults))
    as [vss [novas [Hm [Ht Hf]]]].
  - reflexivity.
  - assert (H : fully_populated registro_exemplo).
    { eexists. split; [reflexivity|].
      unfold colunas. repeat constructor; discriminate. }
    repeat constructor; exact H.
  - rewrite Ht. apply (f_equal (@List.length _)) in Hm.
    apply (f_equal (@List.length _)) in Hf.
    rewrite !length_map in Hm. rewrite !length_map in Hf. simpl in Hm.
    simpl. congruence.
Defined.

(** ** The script as a whole *)

Lemma main_after_extraction (dados_filtrados : value) (w : world) :
  run (print_values dados_filtrados ;;;
       salvar_dados_no_bd_M dados_filtrados) w
  = if stdout_fails (db_faults w)
    then (Raise ValueErr, printed dados_filtrados w)
    else salvar_dados_no_bd dados_filtrados (printed dados_filtrados w).
Proof.
  destruct w as [t c [? ? ? ? ? ? ? []] n tr]; reflexivity.
Qed.

Lemma valores_combine_colunas (vs : list value) :
  List.length vs = 10%nat -> valores (VDict (combine colunas vs)) = Return vs.
Proof.
  intros H.
  do 10 (destruct vs as [|? vs]; [discriminate|]).
  destruct vs; [reflexivity | discriminate].
Qed.

Lemma truthy_combine_colunas (vs : list value) :
  List.length vs = 10%nat -> truthy (VDict (combine colunas vs)) = true.
Proof.
  intros H. destruct vs; [discriminate | reflexivity].
Qed.

(** What the script does once the fetcher has returned. *)
Lemma main_cases (r : http_outcome) (w : world) :
  main r w = (Return tt, w)
  \/ (exists e,
        extrair_info_interesse (buscar_dados_climaticos r) = Raise e
        /\ main r w = (Raise e, w))
  \/ (exists vs,
        map (getpath (buscar_dados_climaticos r)) caminhos = map Return vs
        /\ stdout_fails (db_faults w) = true
        /\ main r w = (Raise ValueErr, printed (VDict (combine colunas vs)) w))
  \/ (exists vs,
        map (getpath (buscar_dados_climaticos r)) caminhos = map Return vs
        /\ stdout_fails (db_faults w) = false
        /\ main r w
           = salvar_dados_no_bd (VDict (combine colunas vs))
               (printed (VDict (combine colunas vs)) w)).
Proof.
  unfold main.
  destruct (truthy (buscar_dados_climaticos r)); [|now left].
  destruct (extrair_info_interesse (buscar_dados_climaticos r)) as [v|e] eqn:E.
  - destruct (extrair_Return_inv _ _ E) as [-> | [vs [Hvs ->]]]; [now left|].
    pose proof (map_Return_length _ _ _ Hvs) as Hlen. simpl in Hlen.
    rewrite truthy_combine_colunas by exact Hlen.
    rewrite main_after_extraction.
    destruct (stdout_fails (db_faults w)) eqn:Hs.
    + right; right; left. now exists vs.
    + right; right; right. now exists vs.
  - right; left. now exists e.
Qed.

Lemma buscar_fetch_failed (r : http_outcome) :
  fetch_failed r -> buscar_dados_climaticos r = VNone.
Proof.
  destruct r as [st json|]; simpl; [|reflexivity].
  intros [[H1 H2] | ->].
  - apply Z.leb_le in H1. apply Z.ltb_lt in H2. now rewrite H1, H2.
  - destruct ((400 <=? st) && (st <? 600)); reflexivity.
Qed.

(** X11: after a fetch that failed (an error status from 400 to 599
    whatever the body, a body that is not JSON, or no answer) the script
    ends normally without extracting or writing anything. *)
Theorem main_fetch_failed (r : http_outcome) (w : world) :
  fetch_failed r -> main r w = (Return tt, w).
Proof.
  intros H. unfold main. now rewrite (buscar_fetch_failed r H).
Qed.

Lemma main_fetch_failed_witness :
  main (Answered 404 (Some (resposta_exemplo (VList [])))) (world0 no_faults)
  = (Return tt, world0 no_faults).
Proof.
  apply main_fetch_failed. left. split; [apply Z.leb_le | apply Z.ltb_lt]; reflexivity.
Defined.

(** X12: no KeyError ever ends the script, and an error of the database
    ends it only when a rollback fails.  When the script ends with an
    exception, it is the IndexError or TypeError of the extractor, with
    nothing printed and the database untouched; or the exception of
    printing the record, before the writer is called; or the ValueError
    with which the driver refuses a parameter of the INSERT; or the
    error of a failed rollback.  In each case the table is left as it
    was. *)
Theorem main_raises_only (r : http_outcome) (w : world) (e : exn) :
  fst (main r w) = Raise e ->
  table (snd (main r w)) = table w
  /\ e <> KeyError
  /\ ((extrair_info_interesse (buscar_dados_climaticos r) = Raise e
       /\ snd (main r w) = w)
      \/ (e = ValueErr
          /\ (stdout_fails (db_faults w) = true
              \/ execute_refused (db_faults w) = true))
      \/ (e = DbError /\ rollback_fails (db_faults w) = true)).
Proof.
  intros H.
  destruct (main_cases r w)
    as [E | [[e' [He' E]] | [[vs [Hvs [Hs E]]] | [vs [Hvs [Hs E]]]]]];
    rewrite E in *; cbn [fst snd] in *.
  - discriminate H.
  - injection H as ->.
    split; [reflexivity|]. split.
    + intros ->. destruct (extrair_raises_only_aux _ _ He'); discriminate.
    + left. now split.
  - injection H as <-.
    split; [reflexivity|]. split; [discriminate|].
    right; left. split; [reflexivity | now left].
  - pose proof (map_Return_length _ _ _ Hvs) as Hlen. simpl in Hlen.
    pose proof (valores_combine_colunas vs Hlen) as Hv.
    destruct (writer_raises _ _ _ H) as [Ht [_ [[_ [K _]] | [[-> [K _]] | [-> [K _]]]]]].
    + rewrite Hv in K. discriminate K.
    + split; [exact Ht|]. split; [discriminate|].
      right; left. split; [reflexivity | now right].
    + split; [exact Ht|]. split; [discriminate|].
      right; right. now split.
Qed.

Lemma main_raises_only_witness :
  table (snd (main (Answered 200 (Some (VList [VInt 1])))
                   (world_exemplo no_faults)))
  = table (world_exemplo no_faults).
Proof.
  apply (main_raises_only (Answered 200 (Some (VList [VInt 1])))
                          (world_exemplo no_faults) TypeError).
  reflexivity.
Defined.

Lemma present_name_truthy (raw : value) :
  present raw [SKey "name"] -> truthy raw = true.
Proof.
  intros [v Hv]. destruct raw; try discriminate Hv.
  destruct d; [discriminate Hv | reflexivity].
Qed.

(** X13: a whole cycle.  For an answer that is not an error status and
    whose body has the ten fields, when the record can be printed and no
    call of the writer fails (the driver accepting every value among
    them), the script ends normally and the table has one more row,
    which holds under each column the value of the corresponding field
    of the body. *)
Theorem main_stores_response (status_code : Z) (raw : value) (w : world) :
  ~ (400 <= status_code < 600) ->
  Forall (present raw) caminhos ->
  stdout_fails (db_faults w) = false ->
  writer_fault (db_faults w) = false ->
  exists vs,
    map (getpath raw) caminhos = map Return vs
    /\ fst (main (Answered status_code (Some raw)) w) = Return tt
    /\ table (snd (main (Answered status_code (Some raw)) w))
       = (table w ++ [mkRow (combine colunas vs) (clock w)])%list.
Proof.
  intros Hst Hall Hout Hok.
  destruct (Forall_present_values _ _ Hall) as [vs Hvs].
  exists vs. split; [exact Hvs|].
  pose proof (map_Return_length _ _ _ Hvs) as Hlen. simpl in Hlen.
  assert (Hb : buscar_dados_climaticos (Answered status_code (Some raw)) = raw).
  { simpl.
    destruct (400 <=? status_code) eqn:E1; [|reflexivity].
    destruct (status_code <? 600) eqn:E2; [|reflexivity].
    apply Z.leb_le in E1. apply Z.ltb_lt in E2. lia. }
  assert (Hraw : raw <> VNone).
  { intros ->. inversion Hall as [|? ? [v Hv] _]. discriminate Hv. }
  unfold main. rewrite Hb.
  rewrite present_name_truthy by (inversion Hall; assumption).
  rewrite (extrair_all_present raw vs Hraw Hvs).
  rewrite truthy_combine_colunas by exact Hlen.
  rewrite main_after_extraction, Hout.
  exact (salvar_ok _ vs (printed (VDict (combine colunas vs)) w)
           (valores_combine_colunas vs Hlen) Hok).
Qed.

Lemma main_stores_response_witness :
  table (snd (main (Answered 200
                      (Some (resposta_exemplo
                               (VList [VDict [("description", VStr "nublado")]]))))
                   (world0 no_faults)))
  = [mkRow [ ("cidade", VStr "Recife"); ("pais", VStr "BR");
             ("temperatura_c", VFloat 28.5%float);
             ("sensacao_termica_c", VFloat 31%float);
             ("temp_min_c", VFloat 27%float); ("temp_max_c", VFloat 30%float);
             ("umidade_pct", VInt 74); ("descricao", VStr "nublado");
             ("velocidade_vento_ms", VFloat 4.5%float);
             ("timestamp_coleta", VInt 1700000000) ] 1000].
Proof.
  destruct (main_stores_response 200
              (resposta_exemplo (VList [VDict [("description", VStr "nublado")]]))
              (world0 no_faults)) as [vs [Hvs [_ Ht]]].
  - lia.
  - unfold caminhos. repeat constructor; eexists; reflexivity.
  - reflexivity.
  - reflexivity.
  - rewrite Ht. cbn in Hvs.
    do 10 (destruct vs as [|? vs]; [discriminate Hvs|]).
    destruct vs; [|discriminate Hvs].
    injection Hvs as <- <- <- <- <- <- <- <- <- <-.
    reflexivity.
Defined.

(** X14: whatever the weather service answers and whichever calls to the
    database fail, a run of the script leaves no connection open, keeps
    the rows that were in the table and adds at most one. *)
Theorem main_keeps_table (r : http_outcome) (w : world) :
  open_conns (snd (main r w)) = open_conns w
  /\ exists novas,
       table (snd (main r w)) = (table w ++ novas)%list
       /\ (List.length novas <= 1)%nat.
Proof.
  destruct (main_cases r w)
    as [E | [[e' [_ E]] | [[vs [_ [_ E]]] | [vs [_ [_ E]]]]]]; rewrite E.
  - split; [reflexivity|]. exists []. split; [now rewrite app_nil_r | auto].
  - split; [reflexivity|]. exists []. split; [now rewrite app_nil_r | auto].
  - split; [reflexivity|]. exists []. split; [now rewrite app_nil_r | auto].
  - split; [now rewrite salvar_closes|].
    match goal with
    | |- context [salvar_dados_no_bd ?d ?w'] =>
        destruct (salvar_table d w') as [Ht | [vs' [_ [_ [_ Ht]]]]];
        rewrite Ht
    end.
    + exists []. split; [now rewrite app_nil_r | auto].
    + eexists. split; [reflexivity | auto].
Qed.

(** ** The query service, on every input *)

(** X15: [get_db_connection] never raises: it returns a connection when
    connecting succeeds, which is then the one more connection that is
    open, and None when it fails, with no connection opened. *)
Theorem get_db_connection_result (fr : frame) (w : world) :
  fst (get_db_connection (fr, w))
  = Return (negb (connect_fails (db_faults w)))
  /\ conn (fst (snd (get_db_connection (fr, w))))
     = (conn fr || negb (connect_fails (db_faults w)))%bool
  /\ open_conns (snd (snd (get_db_connection (fr, w))))
     = (if connect_fails (db_faults w) then open_conns w
        else S (open_conns w))
  /\ table (snd (snd (get_db_connection (fr, w)))) = table w.
Proof.
  destruct fr as [[] ? ? ?], w as [t c [[] ? ? ? ?] n tr]; repeat split.
Qed.

Lemma get_clima_todos_world (w : world) :
  table (snd (get_clima_todos w)) = table w
  /\ (connect_fails (db_faults w) = true ->
      trace (snd (get_clima_todos w))
      = EPrint MsgErroConectar :: EConnect :: trace w).
Proof.
  destruct w as [t c [[] [] [] ? [] [] ? ?] n tr]; split;
    try reflexivity; discriminate.
Qed.

Lemma get_clima_por_cidade_world
    (lower : ascii -> ascii) (cidade : string) (w : world) :
  table (snd (get_clima_por_cidade lower cidade w)) = table w
  /\ (connect_fails (db_faults w) = true ->
      trace (snd (get_clima_por_cidade lower cidade w))
      = EPrint MsgErroConectar :: EConnect :: trace w).
Proof.
  destruct (like_tokens_wrapped cidade) as [tk E].
  unfold get_clima_por_cidade, get_clima_por_cidade_M, execute_select_cidade.
  rewrite E.
  destruct w as [t c [[] [] [] ? [] [] ? ?] n tr]; split;
    try reflexivity; try discriminate.
  all: cbv -[order_by_data_insercao_desc where_cidade_ilike filter append];
    match goal with
    | |- context [order_by_data_insercao_desc ?l] =>
        destruct (order_by_data_insercao_desc l)
    end; reflexivity.
Qed.

(** X16: the two endpoints only read: whatever the query, the table and
    the failing calls, the table after a request is the table before
    it. *)
Theorem endpoints_read_only
    (lower : ascii -> ascii) (cidade : string) (w : world) :
  table (snd (get_clima_todos w)) = table w
  /\ table (snd (get_clima_por_cidade lower cidade w)) = table w.
Proof.
  split; [apply get_clima_todos_world | apply get_clima_por_cidade_world].
Qed.

(** X17: GET /clima answers 500 exactly when a call to the database
    fails and 200 otherwise; it never answers 404, also when the table
    is empty. *)
Theorem get_clima_todos_status (w : world) :
  status (respond (fst (get_clima_todos w)))
  = (if read_fault (db_faults w) then 500 else 200)
  /\ (body (respond (fst (get_clima_todos w))) = None
      <-> read_fault (db_faults w) = true).
Proof.
  rewrite get_clima_todos_outcome.
  destruct (read_fault (db_faults w)).
  - rewrite respond_read_error. simpl.
    split; [reflexivity | split; reflexivity].
  - simpl. split; [reflexivity | split; discriminate].
Qed.

(** X18: when connecting fails, an endpoint answers 500 after the one
    attempt to connect: it prints the error, opens no cursor, sends no
    query and has nothing to close. *)
Theorem endpoints_connect_failure
    (lower : ascii -> ascii) (cidade : string) (w : world) :
  connect_fails (db_faults w) = true ->
  (respond (fst (get_clima_todos w)) = mkResponse 500 None
   /\ trace (snd (get_clima_todos w))
      = EPrint MsgErroConectar :: EConnect :: trace w)
  /\ (respond (fst (get_clima_por_cidade lower cidade w)) = mkResponse 500 None
      /\ trace (snd (get_clima_por_cidade lower cidade w))
         = EPrint MsgErroConectar :: EConnect :: trace w).
Proof.
  intros H.
  assert (Hr : read_fault (db_faults w) = true)
    by (unfold read_fault; now rewrite H).
  split; split.
  - now rewrite get_clima_todos_outcome, Hr, respond_read_error.
  - now apply get_clima_todos_world.
  - now rewrite get_clima_por_cidade_outcome, Hr, respond_read_error.
  - now apply get_clima_por_cidade_world.
Qed.

Lemma endpoints_connect_failure_witness :
  respond (fst (get_clima_todos
                  (world_exemplo (mkFaults true false false false false))))
  = mkResponse 500 None.
Proof.
  apply (endpoints_connect_failure ascii_lower "recife"
           (world_exemplo (mkFaults true false false false false))).
  reflexivity.
Defined.

Section Folding.

Variable lower : ascii -> ascii.

(** A text is matched through the folding of its letters only. *)
Lemma like_match_folded (t : list tok) (s s' : string) :
  smap lower s = smap lower s' ->
  like_match lower t s = like_match lower t s'.
Proof.
  revert s s'. induction t as [|[| |c] t IH]; intros s s' H.
  - destruct s, s'; try discriminate; reflexivity.
  - revert s' H. induction s as [|d s IHs]; intros [|d' s'] H;
      try discriminate.
    + reflexivity.
    + rewrite (like_match_any lower t (String d s)),
        (like_match_any lower t (String d' s')).
      pose proof H as H0. injection H as _ H'.
      rewrite (IHs s' H').
      f_equal. now apply IH.
  - destruct s as [|d s], s' as [|d' s']; try discriminate; [reflexivity|].
    injection H as _ H'. cbn [like_match]. now apply IH.
  - destruct s as [|d s], s' as [|d' s']; try discriminate; [reflexivity|].
    injection H as Hd H'. cbn [like_match]. rewrite Hd. f_equal. now apply IH.
Qed.

Lemma where_cidade_plain_eq (q : string) (r : row) :
  plain q = true ->
  where_cidade_ilike lower ("%" ++ q ++ "%") r
  = match cidade_of r with
    | Some s => contains (smap lower q) (smap lower s)
    | None => false
    end.
Proof.
  intros Hp. unfold where_cidade_ilike, cidade_of.
  destruct (dict_get "cidade" (fields r)) as [[]|]; try reflexivity.
  now rewrite ilike_plain.
Qed.

End Folding.

(** X20: the search does not look at the case of the letters A to Z.
    Two queries without special characters that differ only in the case
    of such letters select the same rows of the table, get the same
    status, and, when both are answered with rows, the same rows up to
    their order; and a city is matched by a pattern exactly when any
    other spelling of it that differs in case only is. *)
Theorem get_clima_por_cidade_ignores_case (q q' : string) (w : world) :
  plain q = true ->
  plain q' = true ->
  smap ascii_lower q = smap ascii_lower q' ->
  filter (where_cidade_ilike ascii_lower ("%" ++ q ++ "%")) (table w)
  = filter (where_cidade_ilike ascii_lower ("%" ++ q' ++ "%")) (table w)
  /\ status (respond (fst (get_clima_por_cidade ascii_lower q w)))
     = status (respond (fst (get_clima_por_cidade ascii_lower q' w)))
  /\ (forall registros registros',
        fst (get_clima_por_cidade ascii_lower q w) = Return registros ->
        fst (get_clima_por_cidade ascii_lower q' w) = Return registros' ->
        Permutation registros registros')
  /\ (forall p s s',
        smap ascii_lower s = smap ascii_lower s' ->
        ilike ascii_lower s p = ilike ascii_lower s' p).
Proof.
  intros Hp Hp' Hq.
  assert (Hf : filter (where_cidade_ilike ascii_lower ("%" ++ q ++ "%")) (table w)
               = filter (where_cidade_ilike ascii_lower ("%" ++ q' ++ "%")) (table w)).
  { apply filter_ext. intros r.
    rewrite !where_cidade_plain_eq by assumption. now rewrite Hq. }
  split; [exact Hf|].
  rewrite !get_clima_por_cidade_outcome, Hf.
  split; [reflexivity|]. split.
  - intros registros registros' H H'. rewrite H in H'.
    injection H' as <-. apply Permutation_refl.
  - intros p s s' H. unfold ilike.
    destruct (like_tokens false p); [|reflexivity].
    cbn [option_map]. f_equal. now apply like_match_folded.
Qed.

Lemma get_clima_por_cidade_ignores_case_witness :
  filter (where_cidade_ilike ascii_lower ("%" ++ "REC" ++ "%"))
         (table (world_exemplo no_faults))
  = [linha "Recife" 5; linha "recife" 9].
Proof.
  rewrite (proj1 (get_clima_por_cidade_ignores_case "REC" "rec"
                    (world_exemplo no_faults) eq_refl eq_refl eq_refl)).
  reflexivity.
Defined.






(** X22: what GET /clima/{cidade} returns is part of what GET /clima
    returns for the same table: when the first answers with rows, the
    second answers too, and with each of those rows. *)
Theorem get_clima_por_cidade_within_todos
    (lower : ascii -> ascii) (cidade : string) (w : world) (registros : list row) :
  fst (get_clima_por_cidade lower cidade w) = Return registros ->
  exists todos,
    fst (get_clima_todos w) = Return todos
    /\ incl registros todos
    /\ (List.length registros <= List.length todos)%nat.
Proof.
  rewrite get_clima_por_cidade_outcome, get_clima_todos_outcome.
  destruct (read_fault (db_faults w)); [discriminate|].
  intros H.
  exists (order_by_data_insercao_desc (table w)).
  split; [reflexivity|].
  set (sel := filter (where_cidade_ilike lower ("%" ++ cidade ++ "%")) (table w)) in *.
  assert (Hr : registros = order_by_data_insercao_desc sel).
  { destruct (order_by_data_insercao_desc sel); [discriminate H|].
    now injection H. }
  subst registros. split.
  - intros r Hr.
    apply (Permutation_in _ (order_by_perm sel)) in Hr.
    apply filter_In in Hr. destruct Hr as [Hr _].
    now apply (Permutation_in _ (Permutation_sym (order_by_perm (table w)))).
  - rewrite (Permutation_length (order_by_perm sel)),
      (Permutation_length (order_by_perm (table w))).
    apply filter_length_le.
Qed.

Lemma get_clima_por_cidade_within_todos_witness :
  exists todos,
    fst (get_clima_todos (world_exemplo no_faults)) = Return todos
    /\ incl [linha Florianopolis 7] todos.
Proof.
  destruct (get_clima_por_cidade_within_todos ascii_lower "florian"
              (world_exemplo no_faults) [linha Florianopolis 7] eq_refl)
    as [todos [H1 [H2 _]]].
  exists todos. split; [exact H1 | exact H2].
Defined.

(** X23: what is written can be found.  After a run of the writer on a
    record whose city is a text, with a database of which no call fails,
    GET /clima returns the new row among one row more than before, and
    GET /clima/{q} returns it for every query [q] without special
    characters that occurs in the name of the city, letters compared
    without regard to case. *)
Theorem write_then_read
    (lower : ascii -> ascii) (dados : value) (s q : string) (w : world) :
  fully_populated dados ->
  getitem dados (SKey "cidade") = Return (VStr s) ->
  writer_fault (db_faults w) = false ->
  read_fault (db_faults w) = false ->
  plain q = true ->
  (exists a b, smap lower s = (a ++ smap lower q ++ b)%string) ->
  exists nova,
    table (snd (salvar_dados_no_bd dados w)) = (table w ++ [nova])%list
    /\ cidade_of nova = Some s
    /\ (exists todos,
          fst (get_clima_todos (snd (salvar_dados_no_bd dados w))) = Return todos
          /\ In nova todos
          /\ List.length todos = S (List.length (table w)))
    /\ (exists registros,
          fst (get_clima_por_cidade lower q (snd (salvar_dados_no_bd dados w)))
          = Return registros
          /\ In nova registros).
Proof.
  intros Hf Hc Hw Hr Hp Hs.
  destruct (fully_populated_valores _ Hf) as [vs [Ev [Hm Hc']]].
  destruct (salvar_ok _ _ w Ev Hw) as [_ Ht].
  destruct (salvar_keeps_clock_and_faults dados w) as [_ Hfaults].
  set (w' := snd (salvar_dados_no_bd dados w)) in *.
  set (nova := mkRow (combine colunas vs) (clock w)) in *.
  assert (Hcity : cidade_of nova = Some s).
  { rewrite Hc in Hc'. injection Hc' as Hh.
    pose proof (map_Return_length _ _ _ Hm) as Hlen. simpl in Hlen.
    destruct vs as [|v vs]; [discriminate Hlen|].
    simpl in Hh. subst v. reflexivity. }
  exists nova. split; [exact Ht|]. split; [exact Hcity|]. split.
  - exists (order_by_data_insercao_desc (table w')).
    rewrite get_clima_todos_outcome, Hfaults, Hr.
    split; [reflexivity|]. split.
    + apply (Permutation_in _ (Permutation_sym (order_by_perm (table w')))).
      rewrite Ht. apply in_or_app. right. now left.
    + rewrite (Permutation_length (order_by_perm (table w'))), Ht.
      rewrite length_app. simpl. lia.
  - assert (Hin : In nova (filter (where_cidade_ilike lower ("%" ++ q ++ "%"))
                                  (table w'))).
    { apply filter_In. split.
      - rewrite Ht. apply in_or_app. right. now left.
      - rewrite where_cidade_plain_eq by exact Hp.
        rewrite Hcity. now apply contains_spec. }
    rewrite get_clima_por_cidade_outcome, Hfaults, Hr.
    apply (Permutation_in _ (Permutation_sym (order_by_perm _))) in Hin.
    destruct (order_by_data_insercao_desc _) as [|r l] eqn:E;
      [destruct Hin|].
    exists (r :: l). split; [reflexivity | exact Hin].
Qed.

Lemma write_then_read_witness :
  exists registros,
    fst (get_clima_por_cidade ascii_lower "ECI"
           (snd (salvar_dados_no_bd registro_exemplo (world_exemplo no_faults))))
    = Return registros
    /\ List.length registros = 3%nat.
Proof.
  destruct (write_then_read ascii_lower registro_exemplo "Recife" "ECI"
              (world_exemplo no_faults)) as [nova [_ [_ [_ [registros [H _]]]]]].
  - eexists. split; [reflexivity|].
    unfold colunas. repeat constructor; discriminate.
  - reflexivity.
  - reflexivity.
  - reflexivity.
  - reflexivity.
  - exists "r", "fe". reflexivity.
  - exists registros. split; [exact H|].
    vm_compute in H. injection H as <-. reflexivity.
Defined.

(** ** Configuration *)

(** X24: the script starts exactly when API_KEY and POSTGRES_PASSWORD
    are set and not empty, the key being checked first.  It then
    connects to localhost whatever DB_HOST says, on the port DB_PORT or
    5432, and takes the name and the user of the database as they are,
    set or not. *)
Theorem script_config_load (env : environ) :
  ((exists c, ScriptConfig.load env = Started c)
   <-> not_set (environ_get "API_KEY" env) = false
       /\ not_set (environ_get "POSTGRES_PASSWORD" env) = false)
  /\ (not_set (environ_get "API_KEY" env) = true ->
      ScriptConfig.load env = ValueError "API_KEY")
  /\ (forall c,
        ScriptConfig.load env = Started c ->
        ScriptConfig.DB_HOST c = "localhost"
        /\ ScriptConfig.DB_PORT c
           = match environ_get "DB_PORT" env with
             | Some p => p
             | None => "5432"
             end
        /\ ScriptConfig.DB_NAME c = environ_get "POSTGRES_DB" env
        /\ ScriptConfig.DB_USER c = environ_get "POSTGRES_USER" env
        /\ (exists k, ScriptConfig.API_KEY c = Some k /\ k <> "")
        /\ (exists p, ScriptConfig.DB_PASSWORD c = Some p /\ p <> "")).
Proof.
  unfold ScriptConfig.load.
  destruct (environ_get "API_KEY" env) as [k|] eqn:Ek;
    destruct (environ_get "POSTGRES_PASSWORD" env) as [p|] eqn:Ep;
    cbn [not_set];
    try destruct (String.eqb_spec k ""); try destruct (String.eqb_spec p "").
  all: split; [split; [intros [c H]; try discriminate H; auto
                      | intros [H1 H2]; try discriminate;
                        eexists; reflexivity]
              | split; [intros H; try discriminate H; reflexivity|]].
  all: intros c H; try discriminate H; injection H as <-; cbn.
  all: repeat split; eauto.
Qed.

(** X25: the API starts exactly when POSTGRES_DB, POSTGRES_USER,
    POSTGRES_PASSWORD and DB_HOST are present, empty or not; otherwise
    the KeyError is the one of the first of them, in this order, that is
    absent.  The port is DB_PORT or 5432. *)
Theorem api_config_load (env : environ) :
  ((exists c, ApiConfig.load env = Started c)
   <-> Forall (fun k => environ_get k env <> None)
              ["POSTGRES_DB"; "POSTGRES_USER"; "POSTGRES_PASSWORD"; "DB_HOST"])
  /\ (forall k,
        ApiConfig.load env = EnvKeyError k ->
        exists pre post,
          ["POSTGRES_DB"; "POSTGRES_USER"; "POSTGRES_PASSWORD"; "DB_HOST"]
          = (pre ++ k :: post)%list
          /\ environ_get k env = None
          /\ Forall (fun k' => environ_get k' env <> None) pre)
  /\ (forall what, ApiConfig.load env <> ValueError what)
  /\ (forall c,
        ApiConfig.load env = Started c ->
        environ_get "POSTGRES_DB" env = Some (ApiConfig.DB_NAME c)
        /\ environ_get "POSTGRES_USER" env = Some (ApiConfig.DB_USER c)
        /\ environ_get "POSTGRES_PASSWORD" env = Some (ApiConfig.DB_PASSWORD c)
        /\ environ_get "DB_HOST" env = Some (ApiConfig.DB_HOST c)
        /\ ApiConfig.DB_PORT c
           = match environ_get "DB_PORT" env with
             | Some p => p
             | None => "5432"
             end).
Proof.
  unfold ApiConfig.load.
  destruct (environ_get "POSTGRES_DB" env) as [n|] eqn:E1;
    [destruct (environ_get "POSTGRES_USER" env) as [u|] eqn:E2;
     [destruct (environ_get "POSTGRES_PASSWORD" env) as [p|] eqn:E3;
      [destruct (environ_get "DB_HOST" env) as [h|] eqn:E4|]|]|].
  all: split; [split|split; [|split]].
  all:
    first
      [ solve [intros [c H]; discriminate H]
      | solve [intros H;
               repeat match goal with
                      | H : Forall _ (_ :: _) |- _ => inversion H; subst; clear H
                      end; congruence]
      | solve [intros x H; discriminate H]
      | solve [intros _; repeat constructor; congruence]
      | solve [intros _; eexists; reflexivity]
      | solve [intros c H; injection H as <-; repeat split]
      | intros k H; injection H as <-;
        first
          [ exists [], ["POSTGRES_USER"; "POSTGRES_PASSWORD"; "DB_HOST"];
            solve [repeat split;
                   first [assumption | repeat constructor; congruence]]
          | exists ["POSTGRES_DB"], ["POSTGRES_PASSWORD"; "DB_HOST"];
            solve [repeat split;
                   first [assumption | repeat constructor; congruence]]
          | exists ["POSTGRES_DB"; "POSTGRES_USER"], ["DB_HOST"];
            solve [repeat split;
                   first [assumption | repeat constructor; congruence]]
          | exists ["POSTGRES_DB"; "POSTGRES_USER"; "POSTGRES_PASSWORD"], [];
            solve [repeat split;
                   first [assumption | repeat constructor; congruence]] ] ].
Qed.

(** X26: the two programs reach the same database.  With an environment
    in which both start, the script and the API use the same name, user,
    password and port; they differ in the host, which for the script is
    localhost and for the API the value of DB_HOST. *)
Theorem configs_agree
    (env : environ) (sc : ScriptConfig.config) (ac : ApiConfig.config) :
  ScriptConfig.load env = Started sc ->
  ApiConfig.load env = Started ac ->
  ScriptConfig.DB_NAME sc = Some (ApiConfig.DB_NAME ac)
  /\ ScriptConfig.DB_USER sc = Some (ApiConfig.DB_USER ac)
  /\ ScriptConfig.DB_PASSWORD sc = Some (ApiConfig.DB_PASSWORD ac)
  /\ ScriptConfig.DB_PORT sc = ApiConfig.DB_PORT ac
  /\ ScriptConfig.DB_HOST sc = "localhost"
  /\ environ_get "DB_HOST" env = Some (ApiConfig.DB_HOST ac).
Proof.
  unfold ScriptConfig.load, ApiConfig.load.
  destruct (not_set (environ_get "API_KEY" env)); [discriminate|].
  destruct (not_set (environ_get "POSTGRES_PASSWORD" env)); [discriminate|].
  intros [= <-].
  destruct (environ_get "POSTGRES_DB" env); [|discriminate].
  destruct (environ_get "POSTGRES_USER" env); [|discriminate].
  destruct (environ_get "POSTGRES_PASSWORD" env); [|discriminate].
  destruct (environ_get "DB_HOST" env); [|discriminate].
  intros [= <-]. repeat split.
Qed.

Lemma configs_agree_witness :
  ScriptConfig.DB_HOST
    (ScriptConfig.mkConfig (Some "abc123")
       "https://api.openweathermap.org/data/2.5/weather"
       (Some "clima") (Some "app") (Some "segredo") "localhost" "5432")
  = "localhost"
  /\ environ_get "DB_HOST" environ_exemplo = Some "db".
Proof.
  destruct (configs_agree environ_exemplo
              (ScriptConfig.mkConfig (Some "abc123")
                 "https://api.openweathermap.org/data/2.5/weather"
                 (Some "clima") (Some "app") (Some "segredo") "localhost" "5432")
              (ApiConfig.mkConfig "clima" "app" "segredo" "db" "5432"))
    as [_ [_ [_ [_ [H5 H6]]]]].
  - reflexivity.
  - reflexivity.
  - split; [exact H5 | exact H6].
Defined.
